(** * The Quirk thought store (the store module of src/CBTListScreen.tsx)

    The store keeps every thought as a JSON string in the device's
    AsyncStorage, under a key that doubles as the thought's [uuid].  The
    key's prefix tells whether the thought is live
    ([THOUGHTS_KEY_PREFIX]) or sits in the archive ([DELETED_KEY_PREFIX]).

    Layout of this file:
    - [JS]      the fragment of the JavaScript runtime the store relies on:
                values, property access, [startsWith], [replace], [Date];
    - [Host]    what the platform supplies and the repository does not
                contain: [JSON.parse], [json-stringify-safe], the [Date]
                constructor and the local time zone;
    - [Scenario] what one run of the program meets: the fate of each
                AsyncStorage request, the clock, the random identifiers;
    - the store's functions, one definition per source function, in a
                state-and-exception monad over the storage contents;
    - [Device]  a concrete host (a JSON reader and printer, ISO dates) on
                which the examples are evaluated;
    - the properties. *)

From Stdlib Require Import ZArith String Ascii List Lia.
From stdpp Require Import gmap strings list fin_maps pretty.
Import ListNotations.
Local Open Scope string_scope.
Local Open Scope list_scope.

(* ===================================================================== *)
(** * The JavaScript fragment                                             *)
(* ===================================================================== *)

Module JS.

(** The time value of a [Date]: milliseconds since the epoch; [None] is
    Invalid Date. *)
Definition date := option Z.

(** The numbers the store computes with are minutes of the hour and their
    differences; [None] is NaN. *)
Definition number := option Z.

(** Values.  An array may carry named properties next to its items (the
    store assigns [updatedAt] and [uuid] to whatever [JSON.parse] gave
    it).  [VBack path] is a circular reference: met inside an object, it
    is that object's ancestor found at [path] from the top ([VBack []] is
    the top object itself, as after [thought.self = thought]). *)
#[warnings="-register-all"]
Inductive value : Type :=
| VUndefined
| VNull
| VBool (b : bool)
| VNum (n : Z)
| VStr (s : string)
| VDate (d : date)
| VArr (items : list value) (named : list (string * value))
| VObj (fields : list (string * value))
| VBack (path : list string).

(** Field lists keep insertion order, one entry per name. *)
Fixpoint assoc_get {A} (k : string) (l : list (string * A)) : option A :=
  match l with
  | [] => None
  | (k', x) :: l' => if String.eqb k k' then Some x else assoc_get k l'
  end.

Fixpoint assoc_set {A} (k : string) (x : A) (l : list (string * A))
  : list (string * A) :=
  match l with
  | [] => [(k, x)]
  | (k', y) :: l' =>
      if String.eqb k k' then (k, x) :: l' else (k', y) :: assoc_set k x l'
  end.

(** [v.k] for a name [k] that is neither an index nor [length] (the store
    reads [uuid] and [updatedAt] only).  [None] is the TypeError raised on
    [null] and [undefined].  The store reads the fields of whole records
    only; a [VBack] lies below the record it points back to, is never the
    record itself, and like a [Date] has no fields of its own here. *)
Definition get_prop (v : value) (k : string) : option value :=
  match v with
  | VUndefined | VNull => None
  | VObj fields => Some (default VUndefined (assoc_get k fields))
  | VArr _ named => Some (default VUndefined (assoc_get k named))
  | VBool _ | VNum _ | VStr _ | VDate _ | VBack _ => Some VUndefined
  end.

(** [v.k = x], in strict mode (the module is an ES module): a TypeError on
    [null], [undefined] and on primitives.  A [Date] is only ever a field
    of a record here, never the record itself, and carries no fields of
    its own in this model. *)
Definition set_prop (v : value) (k : string) (x : value) : option value :=
  match v with
  | VObj fields => Some (VObj (assoc_set k x fields))
  | VArr items named => Some (VArr items (assoc_set k x named))
  | _ => None
  end.

(** The own enumerable properties, as the spread [...v] copies them.  A
    [VBack] among them is copied as it stands: in the copy it still
    stands for the object it pointed to. *)
Definition own_fields (v : value) : list (string * value) :=
  match v with
  | VObj fields => fields
  | VArr items named => imap (fun i x => (pretty i, x)) items ++ named
  | VStr s =>
      imap (fun i c => (pretty i, VStr (String c EmptyString)))
           (list_ascii_of_string s)
  | _ => []
  end.

(** The object literal [{ ...literal, ...v }]: the literal's fields first,
    then the fields of [v], which win where names clash. *)
Definition spread_over (literal : list (string * value)) (v : value) : value :=
  VObj (fold_left (fun acc kv => assoc_set kv.1 kv.2 acc) (own_fields v) literal).

(** [s.startsWith(p)]. *)
Definition startsWith (s p : string) : bool := String.prefix p s.

Fixpoint drop_chars (n : nat) (s : string) : string :=
  match n, s with
  | S n', String _ s' => drop_chars n' s'
  | _, _ => s
  end.

(** [s.replace(pat, rep)] with a string pattern: the first occurrence only.
    (The replacement strings of the store contain no [$].) *)
Fixpoint replace (s pat rep : string) : string :=
  if String.prefix pat s then rep +:+ drop_chars (String.length pat) s
  else match s with
       | EmptyString => EmptyString
       | String c s' => String c (replace s' pat rep)
       end.

(** A string or [undefined] is falsy when it is [undefined] or empty. *)
Definition falsy (o : option string) : bool :=
  match o with
  | None => true
  | Some s => String.eqb s ""
  end.

(** [date.getMinutes()]: the minute of the hour in local time;
    [LocalTZA t] is the zone's offset at [t], in milliseconds. *)
Definition getMinutes (LocalTZA : Z -> Z) (d : date) : number :=
  match d with
  | None => None
  | Some t => Some (((t + LocalTZA t) / 60000) mod 60)%Z
  end.

Definition minus (a b : number) : number :=
  match a, b with
  | Some x, Some y => Some (x - y)%Z
  | _, _ => None
  end.

(** [a > n]; a comparison with NaN is false. *)
Definition gt (a : number) (n : Z) : bool :=
  match a with
  | Some x => (n <? x)%Z
  | None => false
  end.

End JS.

Import JS.

(* ===================================================================== *)
(** * The platform                                                        *)
(* ===================================================================== *)

(** Library functions the store calls and the repository does not define.
    - [JSON_parse s]: [None] when [JSON.parse] throws a SyntaxError;
    - [stringify v] (json-stringify-safe): [None] when it throws,
      [Some None] when it returns [undefined];
    - [Date_from v]: the time value of [new Date(v)];
    - [LocalTZA]: see [JS.getMinutes]. *)
Record Host := {
  JSON_parse : string -> option value;
  stringify : value -> option (option string);
  Date_from : value -> date;
  LocalTZA : Z -> Z;
}.

(** What happens to one AsyncStorage request: it is carried out, it is
    rejected (the promise rejects and nothing is stored), or the process
    is killed before the request is carried out. *)
Inductive fault := Pass | Reject | Crash.

(** One run: the fate of the n-th storage request, the n-th reading of the
    clock ([new Date()]), the n-th identifier drawn ([uuidv4()]). *)
Record Scenario := {
  fate : nat -> fault;
  wallclock : nat -> Z;
  uuidv4 : nat -> string;
}.

(** The state: the storage contents, and how many requests, clock readings
    and identifiers have been consumed. *)
Record world := {
  disk : gmap string string;
  io : nat;
  clk : nat;
  rnd : nat;
}.

(** How a computation ends: with a value, with an exception in flight, or
    not at all (the process was killed).  [try]/[catch] stops [Threw]
    only. *)
Inductive outcome (A : Type) : Type :=
| Done (a : A)
| Threw
| Halted.
Arguments Done {A} a.
Arguments Threw {A}.
Arguments Halted {A}.

Definition M (A : Type) : Type := world -> outcome A * world.

Definition ret {A} (a : A) : M A := fun w => (Done a, w).

Definition bind {A B} (m : M A) (k : A -> M B) : M B :=
  fun w =>
    match m w with
    | (Done a, w') => k a w'
    | (Threw, w') => (Threw, w')
    | (Halted, w') => (Halted, w')
    end.

Definition throw {A} : M A := fun w => (Threw, w).

(** [try { m } catch (error) { console.error(error); h }] *)
Definition try_catch {A} (m : M A) (h : M A) : M A :=
  fun w =>
    match m w with
    | (Threw, w') => h w'
    | r => r
    end.

(** A host call that may throw. *)
Definition call {A} (r : option A) : M A :=
  match r with
  | Some a => ret a
  | None => throw
  end.

Declare Scope store_scope.
Delimit Scope store_scope with store.
Notation "x <- m ;; k" := (bind m (fun x => k))
  (at level 100, m at next level, right associativity) : store_scope.
Notation "m ;;; k" := (bind m (fun _ => k))
  (at level 100, right associativity) : store_scope.
Local Open Scope store_scope.

Definition EXISTING_USER_KEY : string := "@Quirk:existing-user".
Definition THOUGHTS_KEY_PREFIX : string := "@Quirk:thoughts:".
Definition DELETED_KEY_PREFIX : string := "@Quirk:deleted-thoughts:".
(** Keep deleted thoughts for a week. *)
Definition EXPIRY_MINUTES : Z := 7 * 24 * 60.

Definition getThoughtKey (info : string) : string :=
  THOUGHTS_KEY_PREFIX +:+ info.

(** [StoredThoughts] *)
Record StoredThoughts := {
  savedThoughts : list value;
  deletedThoughts : list value;
}.

(** A row of [multiGet]: the key and its value, [None] for [null]. *)
Definition row : Type := string * option string.

(** [rows.filter(n => n && n[1])] *)
Definition row_truthy (n : row) : bool := negb (falsy n.2).

(** [JSON.parse(x)] where [x] came from storage: [null] is first turned
    into the string ["null"]. *)
Definition item_text (x : option string) : string := default "null" x.

Section Store.

Context (host : Host) (run : Scenario).

(** ** AsyncStorage *)

Definition set_disk (d : gmap string string) (w : world) : world :=
  {| disk := d; io := io w; clk := clk w; rnd := rnd w |}.

(** The world after one more request, clock reading, identifier. *)
Definition asked (w : world) : world :=
  {| disk := disk w; io := S (io w); clk := clk w; rnd := rnd w |}.

Definition tick (w : world) : world :=
  {| disk := disk w; io := io w; clk := S (clk w); rnd := rnd w |}.

Definition drawn (w : world) : world :=
  {| disk := disk w; io := io w; clk := clk w; rnd := S (rnd w) |}.

(** One request: the next fate of the run decides. *)
Definition request {A} (effect : gmap string string -> A * gmap string string)
  : M A :=
  fun w =>
    let w' := asked w in
    match fate run (io w) with
    | Pass => let r := effect (disk w) in (Done r.1, set_disk r.2 w')
    | Reject => (Threw, w')
    | Crash => (Halted, w')
    end.

Definition getItem (key : string) : M (option string) :=
  request (fun d => (d !! key, d)).

(** The key comes from a record's [uuid] field; the native module rejects
    a key that is not a string. *)
Definition setItem (key : value) (text : string) : M unit :=
  match key with
  | VStr k => request (fun d => (tt, <[k := text]> d))
  | _ => throw
  end.

Definition removeItem (key : string) : M unit :=
  request (fun d => (tt, delete key d)).

(** The keys come in the order the map lists them; the properties below
    speak of membership only, so any other order would do. *)
Definition getAllKeys : M (list string) :=
  request (fun d => ((map_to_list d).*1, d)).

Definition multiGet (keys : list string) : M (list row) :=
  request (fun d => (map (fun k => (k, d !! k)) keys, d)).

Definition remove_all (keys : list string) (d : gmap string string)
  : gmap string string :=
  fold_left (fun acc k => delete k acc) keys d.

(** [AsyncStorage.multiRemove(keys)] without [await]: a rejection is not
    seen by the caller. *)
Definition multiRemove_detached (keys : list string) : M unit :=
  try_catch (request (fun d => (tt, remove_all keys d))) (ret tt).

(** ** The clock and the identifiers *)

Definition new_Date : M date :=
  fun w => (Done (Some (wallclock run (clk w))), tick w).

Definition fresh_uuid : M string :=
  fun w => (Done (uuidv4 run (rnd w)), drawn w).

(** ** exists, getIsExistingUser, setIsExistingUser *)

Definition exists_ (key : string) : M bool :=
  try_catch (item <- getItem key ;; ret (negb (falsy item))) (ret false).

Definition getIsExistingUser : M bool :=
  try_catch (item <- getItem EXISTING_USER_KEY ;; ret (negb (falsy item)))
            (ret false).

Definition setIsExistingUser : M unit :=
  try_catch (request (fun d => (tt, <[EXISTING_USER_KEY := "true"]> d)))
            (ret tt).

(** ** saveThought *)

Definition saveThought (saveableThought : value) : M value :=
  try_catch
    (thoughtString <- call (stringify host saveableThought) ;;
     (* No matter what, we NEVER save bad data. *)
     if falsy thoughtString then ret saveableThought
     else
       key <- call (get_prop saveableThought "uuid") ;;
       setItem key (default "" thoughtString) ;;;
       ret saveableThought)
    (ret saveableThought).

(** ** saveExercise

    The source updates [thought.updatedAt] in place when the thought has a
    [uuid]; here the updated record is the returned value. *)
Definition saveExercise (thought : value) : M value :=
  uuid <- call (get_prop thought "uuid") ;;
  let isSavedThought := match uuid with VUndefined => true | _ => false end in
  if isSavedThought then
    id <- fresh_uuid ;;
    createdAt <- new_Date ;;
    updatedAt <- new_Date ;;
    saveThought
      (spread_over [("uuid", VStr (getThoughtKey id));
                    ("createdAt", VDate createdAt);
                    ("updatedAt", VDate updatedAt)] thought)
  else
    now <- new_Date ;;
    saveableThought <- call (set_prop thought "updatedAt" (VDate now)) ;;
    saveThought saveableThought.

(** ** deleteExercise *)

Definition deleteExercise (uuid : string) : M unit :=
  try_catch
    (item <- getItem uuid ;;
     thought <- call (JSON_parse host (item_text item)) ;;
     (* Update to now so that we can 'expire' thoughts when they get too old. *)
     now <- new_Date ;;
     thought <- call (set_prop thought "updatedAt" (VDate now)) ;;
     if startsWith uuid THOUGHTS_KEY_PREFIX then
       (* 'Move' the thought to the archive: store first, then delete. *)
       thought <- call (set_prop thought "uuid"
                          (VStr (replace uuid THOUGHTS_KEY_PREFIX DELETED_KEY_PREFIX))) ;;
       saveThought thought ;;;
       removeItem uuid
     else
       (* Delete the thought permanently *)
       removeItem uuid)
    (ret tt).

(** ** restoreExercise *)

Definition restoreExercise (uuid : string) : M unit :=
  try_catch
    (item <- getItem uuid ;;
     thought <- call (JSON_parse host (item_text item)) ;;
     now <- new_Date ;;
     thought <- call (set_prop thought "updatedAt" (VDate now)) ;;
     thought <- call (set_prop thought "uuid"
                        (VStr (replace uuid DELETED_KEY_PREFIX THOUGHTS_KEY_PREFIX))) ;;
     saveThought thought ;;;
     removeItem uuid)
    (ret tt).

(** ** getExercises *)

(** [const isExpired = (date) => new Date().getMinutes() - date.getMinutes() > EXPIRY_MINUTES] *)
Definition isExpired (d : date) : M bool :=
  now <- new_Date ;;
  ret (gt (minus (getMinutes (LocalTZA host) now) (getMinutes (LocalTZA host) d))
          EXPIRY_MINUTES).

(** The accumulators of the loop: [result] and [outdatedDeletedThoughts]. *)
Definition sorting : Type := StoredThoughts * list string.

(** The body of [rows.forEach(x => ...)]. *)
Definition sort_row (x : row) (acc : sorting) : M sorting :=
  let key := x.1 in
  thought <- call (JSON_parse host (item_text x.2)) ;;
  if startsWith key THOUGHTS_KEY_PREFIX then
    ret ({| savedThoughts := savedThoughts acc.1 ++ [thought];
            deletedThoughts := deletedThoughts acc.1 |}, acc.2)
  else
    updatedAt <- call (get_prop thought "updatedAt") ;;
    expired <- isExpired (Date_from host updatedAt) ;;
    if expired then ret (acc.1, acc.2 ++ [key])
    else
      ret ({| savedThoughts := savedThoughts acc.1;
              deletedThoughts := deletedThoughts acc.1 ++ [thought] |}, acc.2).

Fixpoint forEach (rows : list row) (acc : sorting) : M sorting :=
  match rows with
  | [] => ret acc
  | x :: rest => acc' <- sort_row x acc ;; forEach rest acc'
  end.

Definition no_thoughts : StoredThoughts :=
  {| savedThoughts := []; deletedThoughts := [] |}.

Definition thought_key (key : string) : bool :=
  startsWith key THOUGHTS_KEY_PREFIX || startsWith key DELETED_KEY_PREFIX.

(** The rows the loop runs over: the thought keys with their values, the
    falsy values dropped. *)
Definition rows_of (d : gmap string string) : list row :=
  List.filter row_truthy
    (map (fun k => (k, d !! k)) (List.filter thought_key (map_to_list d).*1)).

(** [multiGet] always resolves to an array, so the source's
    [if (!rows) rows = []] has nothing to do. *)
Definition getExercises : M StoredThoughts :=
  try_catch
    (allKeys <- getAllKeys ;;
     let keys := List.filter thought_key allKeys in
     rows <- multiGet keys ;;
     (* This filter removes "null", "undefined" *)
     let rows := List.filter row_truthy rows in
     sorted <- forEach rows (no_thoughts, []) ;;
     multiRemove_detached sorted.2 ;;;
     ret sorted.1)
    (ret no_thoughts).

End Store.

(* ===================================================================== *)
(** * The list screen's loading (loadExercises)                           *)
(* ===================================================================== *)

(** The truthiness of a value, as [filter(n => n)] tests it. *)
Definition truthy (v : value) : bool :=
  match v with
  | VUndefined | VNull => false
  | VBool b => b
  | VNum n => negb (n =? 0)%Z
  | VStr s => negb (String.eqb s "")
  | VDate _ | VArr _ _ | VObj _ | VBack _ => true
  end.

Section Screen.

Context (host : Host).

(** [fixTimestamps]: [{ createdAt, updatedAt, ...json }] with the two
    dates built from the fields of [json].  [None] is the TypeError of
    reading a field of [null] or [undefined]. *)
Definition fixTimestamps (json : value) : option value :=
  createdAt ← get_prop json "createdAt";
  updatedAt ← get_prop json "updatedAt";
  Some (spread_over [("createdAt", VDate (Date_from host createdAt));
                     ("updatedAt", VDate (Date_from host updatedAt))] json).

(** [groupThoughtsByDay] (./thoughts) and [validThoughtGroup] (./sanitize)
    are imported by the screen and not part of this file. *)
Context {ThoughtGroup : Type}
        (groupThoughtsByDay : list value -> list ThoughtGroup)
        (validThoughtGroup : ThoughtGroup -> bool).

(** [getThoughtGroup] *)
Definition getThoughtGroup (storedThoughts : list value)
  : option (list ThoughtGroup) :=
  (* Worst case scenario, if bad data gets in we don't show it. *)
  thoughts ← mapM fixTimestamps (List.filter truthy storedThoughts);
  Some (List.filter validThoughtGroup (groupThoughtsByDay thoughts)).

End Screen.

(* ===================================================================== *)
(** * A concrete device                                                   *)
(* ===================================================================== *)

(** A host to run the store on.  It implements the part of [JSON] and of
    [Date] that thought records use: objects, arrays, strings, integers,
    booleans, [null]; dates printed and read in the format of
    [Date.prototype.toISOString].  Outside that part it is stricter than
    a real engine: fractions, exponents and escapes above code 255 are
    refused by [parse], and [new Date(v)] of a date string in another
    format, of an array or of an object is Invalid Date. *)
Module Device.

Local Open Scope Z_scope.

(** ** Dates *)

Definition msPerDay : Z := 86400000.

(** Days since the epoch to year, month, day, and back (proleptic
    Gregorian calendar). *)
Definition civil_from_days (days : Z) : Z * Z * Z :=
  let z := days + 719468 in
  let era := z / 146097 in
  let doe := z - era * 146097 in
  let yoe := (doe - doe / 1460 + doe / 36524 - doe / 146096) / 365 in
  let doy := doe - (365 * yoe + yoe / 4 - yoe / 100) in
  let mp := (5 * doy + 2) / 153 in
  let d := doy - (153 * mp + 2) / 5 + 1 in
  let m := if mp <? 10 then mp + 3 else mp - 9 in
  let y := yoe + era * 400 + (if m <=? 2 then 1 else 0) in
  (y, m, d).

Definition days_from_civil (y m d : Z) : Z :=
  let y := y - (if m <=? 2 then 1 else 0) in
  let era := y / 400 in
  let yoe := y - era * 400 in
  let doy := (153 * (if 2 <? m then m - 3 else m + 9) + 2) / 5 + d - 1 in
  let doe := yoe * 365 + yoe / 4 - yoe / 100 + doy in
  era * 146097 + doe - 719468.

Fixpoint zeros (n : nat) : string :=
  match n with
  | O => ""
  | S n' => String "0" (zeros n')
  end.

(** A natural number in at least [width] digits. *)
Definition pad (width : nat) (n : Z) : string :=
  let digits := pretty (Z.abs n) in
  zeros (width - String.length digits) +:+ digits.

Definition toISOString (d : date) : option string :=
  match d with
  | None => None
  | Some t =>
      let '(y, m, day) := civil_from_days (t / msPerDay) in
      let ms := t mod msPerDay in
      let year :=
        if (0 <=? y) && (y <=? 9999) then pad 4 y
        else (if y <? 0 then "-" else "+") +:+ pad 6 y in
      Some (year +:+ "-" +:+ pad 2 m +:+ "-" +:+ pad 2 day +:+ "T" +:+
            pad 2 (ms / 3600000) +:+ ":" +:+ pad 2 (ms / 60000 mod 60) +:+ ":" +:+
            pad 2 (ms / 1000 mod 60) +:+ "." +:+ pad 3 (ms mod 1000) +:+ "Z")
  end.

Definition is_digit (c : ascii) : bool :=
  let n := N_of_ascii c in ((48 <=? n) && (n <=? 57))%N.

Definition digit_val (c : ascii) : Z := Z.of_N (N_of_ascii c) - 48.

(** Exactly [n] digits. *)
Fixpoint fixed_digits (n : nat) (s : string) (acc : Z) : option (Z * string) :=
  match n, s with
  | O, _ => Some (acc, s)
  | S n', String c s' =>
      if is_digit c then fixed_digits n' s' (10 * acc + digit_val c) else None
  | S _, EmptyString => None
  end.

Definition expect (c : ascii) (s : string) : option string :=
  match s with
  | String c' s' => if Ascii.eqb c c' then Some s' else None
  | EmptyString => None
  end.

Definition days_in_month (y m : Z) : Z :=
  days_from_civil (if m =? 12 then y + 1 else y) (if m =? 12 then 1 else m + 1) 1
  - days_from_civil y m 1.

(** [Date.parse] on the [YYYY-MM-DDTHH:mm:ss.sssZ] format. *)
Definition parse_iso (s : string) : date :=
  '(y, s) ← fixed_digits 4 s 0;
  s ← expect "-" s;
  '(m, s) ← fixed_digits 2 s 0;
  s ← expect "-" s;
  '(d, s) ← fixed_digits 2 s 0;
  s ← expect "T" s;
  '(hh, s) ← fixed_digits 2 s 0;
  s ← expect ":" s;
  '(mm, s) ← fixed_digits 2 s 0;
  s ← expect ":" s;
  '(ss, s) ← fixed_digits 2 s 0;
  s ← expect "." s;
  '(ms, s) ← fixed_digits 3 s 0;
  s ← expect "Z" s;
  if (String.eqb s "") && (1 <=? m) && (m <=? 12) && (1 <=? d)
     && (d <=? days_in_month y m) && (hh <=? 23) && (mm <=? 59) && (ss <=? 59)
  then Some (days_from_civil y m d * msPerDay
             + hh * 3600000 + mm * 60000 + ss * 1000 + ms)
  else None.

(** [new Date(v)] *)
Definition construct_date (v : value) : date :=
  match v with
  | VUndefined => None
  | VNull => Some 0
  | VBool b => Some (if b then 1 else 0)
  | VNum n => if Z.abs n <=? 8640000000000000 then Some n else None
  | VStr s => parse_iso s
  | VDate d => d
  | VArr _ _ | VObj _ | VBack _ => None
  end.

(** ** Printing *)

(** The double quote character. *)
Definition dquote : ascii := "034"%char.

Definition hex_digit (n : N) : ascii :=
  ascii_of_N (if (n <? 10)%N then 48 + n else 87 + n)%N.

Definition quote_char (c : ascii) : string :=
  let n := N_of_ascii c in
  if (n =? 34)%N then String "\" (String dquote "") else
  if (n =? 92)%N then "\\" else
  if (n =? 8)%N then "\b" else
  if (n =? 12)%N then "\f" else
  if (n =? 10)%N then "\n" else
  if (n =? 13)%N then "\r" else
  if (n =? 9)%N then "\t" else
  if (n <? 32)%N then
    "\u00" +:+ String (hex_digit (n / 16)) (String (hex_digit (n mod 16)) "")
  else String c "".

Fixpoint quote_chars (s : string) : string :=
  match s with
  | EmptyString => String dquote ""
  | String c s' => quote_char c +:+ quote_chars s'
  end.

Definition quote (s : string) : string := String dquote (quote_chars s).

Fixpoint join (sep : string) (l : list string) : string :=
  match l with
  | [] => ""
  | [x] => x
  | x :: l' => x +:+ sep +:+ join sep l'
  end.

(** What json-stringify-safe puts in the place of a circular reference:
    [[Circular ~]] for the top object, [[Circular ~.a.b]] for the ancestor
    at [a.b]. *)
Definition circular_mark (path : list string) : string :=
  match path with
  | [] => "[Circular ~]"
  | _ => "[Circular ~." +:+ join "." path +:+ "]"
  end.

(** [JSON.stringify(v)] with the replacer of json-stringify-safe; [None]
    is [undefined].  A [VBack] is read against the record being printed,
    which is exact for a record printed as it was built (for a copy made
    by a spread the library would print the original once more, one level
    down, before the mark). *)
Fixpoint print (v : value) : option string :=
  match v with
  | VUndefined => None
  | VNull => Some "null"
  | VBool b => Some (if b then "true" else "false")
  | VNum n => Some (pretty n)
  | VStr s => Some (quote s)
  | VDate d => Some (from_option quote "null" (toISOString d))
  | VArr items _ =>
      Some ("[" +:+ join "," (map (fun x => default "null" (print x)) items) +:+ "]")
  | VObj fields =>
      Some ("{" +:+
            join "," (omap (fun kv => text ← print kv.2;
                                      Some (quote kv.1 +:+ ":" +:+ text)) fields)
            +:+ "}")
  | VBack path => Some (quote (circular_mark path))
  end.

(** ** Reading *)

Definition is_space (c : ascii) : bool :=
  let n := N_of_ascii c in
  ((n =? 32) || (n =? 9) || (n =? 10) || (n =? 13))%N.

Fixpoint skip_ws (s : string) : string :=
  match s with
  | String c s' => if is_space c then skip_ws s' else s
  | EmptyString => s
  end.

Fixpoint read_digits (s : string) (acc : Z) : Z * string :=
  match s with
  | String c s' =>
      if is_digit c then read_digits s' (10 * acc + digit_val c) else (acc, s)
  | EmptyString => (acc, s)
  end.

(** An integer without a sign: [0], or digits that do not start with 0. *)
Definition read_natural (s : string) : option (Z * string) :=
  match s with
  | String c s' =>
      if Ascii.eqb c "0" then Some (0, s')
      else if is_digit c then Some (read_digits s 0)
      else None
  | EmptyString => None
  end.

Definition hex_val (c : ascii) : option N :=
  let n := N_of_ascii c in
  if ((48 <=? n) && (n <=? 57))%N then Some (n - 48)%N
  else if ((97 <=? n) && (n <=? 102))%N then Some (n - 87)%N
  else if ((65 <=? n) && (n <=? 70))%N then Some (n - 55)%N
  else None.

(** The characters of a string literal, after its opening quote. *)
Fixpoint read_string (s : string) : option (string * string) :=
  match s with
  | EmptyString => None
  | String c s' =>
      if Ascii.eqb c dquote then Some ("", s')
      else if Ascii.eqb c "\" then
        match s' with
        | String e s'' =>
            let continue (c : ascii) (rest : option (string * string)) :=
              '(text, rest) ← rest; Some (String c text, rest) in
            if Ascii.eqb e dquote then continue dquote (read_string s'')
            else if Ascii.eqb e "\" then continue "\"%char (read_string s'')
            else if Ascii.eqb e "/" then continue "/"%char (read_string s'')
            else if Ascii.eqb e "b" then continue (ascii_of_N 8) (read_string s'')
            else if Ascii.eqb e "f" then continue (ascii_of_N 12) (read_string s'')
            else if Ascii.eqb e "n" then continue (ascii_of_N 10) (read_string s'')
            else if Ascii.eqb e "r" then continue (ascii_of_N 13) (read_string s'')
            else if Ascii.eqb e "t" then continue (ascii_of_N 9) (read_string s'')
            else if Ascii.eqb e "u" then
              match s'' with
              | String "0" (String "0" (String h (String l s3))) =>
                  hi ← hex_val h; lo ← hex_val l;
                  continue (ascii_of_N (16 * hi + lo)) (read_string s3)
              | _ => None
              end
            else None
        | EmptyString => None
        end
      else if (N_of_ascii c <? 32)%N then None
      else '(text, rest) ← read_string s'; Some (String c text, rest)
  end.

Definition literal (word : string) (v : value) (s : string)
  : option (value * string) :=
  if String.prefix word s then Some (v, drop_chars (String.length word) s)
  else None.

(** The items of an array after its first item: [, item]* and the closing
    bracket. *)
Fixpoint read_items (item : string -> option (value * string)) (n : nat)
  (s : string) (acc : list value) : option (list value * string) :=
  match n with
  | O => None
  | S n' =>
      match skip_ws s with
      | String "]" rest => Some (acc, rest)
      | String "," rest =>
          '(v, rest) ← item rest; read_items item n' rest (acc ++ [v])
      | _ => None
      end
  end.

Definition read_member (item : string -> option (value * string)) (s : string)
  : option (string * value * string) :=
  match skip_ws s with
  | String "034" rest =>
      '(k, rest) ← read_string rest;
      rest ← expect ":" (skip_ws rest);
      '(v, rest) ← item rest;
      Some (k, v, rest)
  | _ => None
  end.

(** The members of an object after its first member. *)
Fixpoint read_members (item : string -> option (value * string)) (n : nat)
  (s : string) (acc : list (string * value))
  : option (list (string * value) * string) :=
  match n with
  | O => None
  | S n' =>
      match skip_ws s with
      | String "}" rest => Some (acc, rest)
      | String "," rest =>
          '(k, v, rest) ← read_member item rest;
          read_members item n' rest (assoc_set k v acc)
      | _ => None
      end
  end.

Fixpoint read_value (fuel : nat) (s : string) : option (value * string) :=
  match fuel with
  | O => None
  | S fuel' =>
      let s := skip_ws s in
      match s with
      | EmptyString => None
      | String c rest =>
          if Ascii.eqb c "n" then literal "null" VNull s
          else if Ascii.eqb c "t" then literal "true" (VBool true) s
          else if Ascii.eqb c "f" then literal "false" (VBool false) s
          else if Ascii.eqb c dquote then
            '(text, rest) ← read_string rest; Some (VStr text, rest)
          else if Ascii.eqb c "-" then
            '(n, rest) ← read_natural rest; Some (VNum (- n), rest)
          else if is_digit c then
            '(n, rest) ← read_natural s; Some (VNum n, rest)
          else if Ascii.eqb c "[" then
            match skip_ws rest with
            | String "]" rest => Some (VArr [] [], rest)
            | _ =>
                '(v, rest) ← read_value fuel' rest;
                '(items, rest) ← read_items (read_value fuel') (String.length rest) rest [v];
                Some (VArr items [], rest)
            end
          else if Ascii.eqb c "{" then
            match skip_ws rest with
            | String "}" rest => Some (VObj [], rest)
            | _ =>
                '(k, v, rest) ← read_member (read_value fuel') rest;
                '(fields, rest) ←
                  read_members (read_value fuel') (String.length rest) rest [(k, v)];
                Some (VObj fields, rest)
            end
          else None
      end
  end.

(** [JSON.parse(s)]; [None] is a SyntaxError. *)
Definition parse (s : string) : option value :=
  '(v, rest) ← read_value (S (String.length s)) s;
  if String.eqb (skip_ws rest) "" then Some v else None.

(** json-stringify-safe does not throw on a circular reference, it prints
    a mark in its place; on the values of this file it never throws. *)
Definition device : Host := {|
  JSON_parse := parse;
  stringify := fun v => Some (print v);
  Date_from := construct_date;
  LocalTZA := fun _ => 0;
|}.

End Device.

(* ===================================================================== *)
(** * Stores and runs used by the examples                                *)
(* ===================================================================== *)

Module Examples.

Import Device.

(** 2019-05-15T12:30:00.000Z *)
Definition noon : Z := 1557923400000.

(** Every request is carried out; the clock advances a millisecond per
    reading. *)
Definition calm : Scenario := {|
  fate := fun _ => Pass;
  wallclock := fun n => (noon + Z.of_nat n)%Z;
  uuidv4 := fun n => "9f1c2e7a-" +:+ pretty n;
|}.

(** As [calm], but the second request is rejected (the device is full). *)
Definition full_device : Scenario := {|
  fate := fun n => if Nat.eqb n 1 then Reject else Pass;
  wallclock := wallclock calm;
  uuidv4 := uuidv4 calm;
|}.

Definition boot (d : gmap string string) : world :=
  {| disk := d; io := 0; clk := 0; rnd := 0 |}.

(** A thought as [JSON.parse] returns it: dates are strings. *)
Definition thought (uuid updatedAt : string) : value :=
  VObj [("uuid", VStr uuid);
        ("createdAt", VStr "2019-05-01T10:00:00.000Z");
        ("updatedAt", VStr updatedAt);
        ("automaticThought", VStr "I always fail");
        ("cognitiveDistortions",
         VArr [VObj [("slug", VStr "all-or-nothing"); ("selected", VBool true)];
               VObj [("slug", VStr "catastrophizing"); ("selected", VBool false)]] []);
        ("challenge", VStr "I passed last week");
        ("alternativeThought", VStr "I sometimes fail")].

(** A thought the form screen hands to [saveExercise]: no [uuid] yet. *)
Definition draft : value :=
  VObj [("automaticThought", VStr "Nobody likes me");
        ("cognitiveDistortions", VArr [] []);
        ("challenge", VStr "");
        ("alternativeThought", VStr "")].

Definition text (v : value) : string := default "" (print v).

Definition live (id : string) : string := THOUGHTS_KEY_PREFIX +:+ id.
Definition archived (id : string) : string := DELETED_KEY_PREFIX +:+ id.

(** Archived one week and one minute before [noon]. *)
Definition stale_thought : value :=
  thought (archived "a1") "2019-05-08T12:29:00.000Z".

Definition stale_archive : gmap string string :=
  {[ archived "a1" := text stale_thought ]}.

Definition one_live : gmap string string :=
  {[ live "a1" := text (thought (live "a1") "2019-05-01T10:00:00.000Z") ]}.

(** A good record next to a value that is not JSON. *)
Definition with_corrupt : gmap string string :=
  <[ live "b2" := "not json" ]> one_live.

(** The same thought under both keys, the archived copy the later one. *)
Definition mid_move : gmap string string :=
  <[ archived "a1" := text (thought (archived "a1") "2019-05-14T09:00:00.000Z") ]>
    one_live.

Definition corrupt_archive : gmap string string :=
  {[ archived "c3" := "not json" ]}.

(** A good live record next to an archived key that holds the text
    [null]. *)
Definition with_null_archive : gmap string string :=
  <[ archived "n0" := "null" ]> one_live.

(** The thought [a1] holding itself in a field, as after
    [thought.self = thought]. *)
Definition looped_thought : value :=
  VObj (own_fields (thought (live "a1") "2019-05-01T10:00:00.000Z")
        ++ [("self", VBack [])]).

(** A device whose serializer throws on whatever it is given. *)
Definition throwing : Host := {|
  JSON_parse := parse;
  stringify := fun _ => None;
  Date_from := construct_date;
  LocalTZA := fun _ => 0%Z;
|}.

(** As [calm], but the first request is rejected. *)
Definition offline : Scenario := {|
  fate := fun n => if Nat.eqb n 0 then Reject else Pass;
  wallclock := wallclock calm;
  uuidv4 := uuidv4 calm;
|}.

End Examples.

(* ===================================================================== *)
(** * Conditions on stores                                                *)
(* ===================================================================== *)

(** Every value [getExercises] will parse does parse, and an archived one
    is not the JSON [null] (its [updatedAt] can be read). *)
Definition loadable (host : Host) (d : gmap string string) : Prop :=
  forall key text,
    d !! key = Some text -> thought_key key = true -> text <> "" ->
    exists v, JSON_parse host text = Some v /\
              (startsWith key THOUGHTS_KEY_PREFIX = false ->
               is_Some (get_prop v "updatedAt")).

(** Every thought key holds the serialization of a record whose [uuid] is
    that key. *)
Definition keyed_by_uuid (host : Host) (d : gmap string string) : Prop :=
  forall key text,
    d !! key = Some text -> thought_key key = true ->
    exists saved, stringify host saved = Some (Some text) /\
                  get_prop saved "uuid" = Some (VStr key).

(** [d'] holds nothing beyond what [d] held, except serializations of
    records stored under their own [uuid]. *)
Definition grown_by_records (host : Host) (d d' : gmap string string) : Prop :=
  forall key text,
    d' !! key = Some text ->
    d !! key = Some text \/
    exists saved, stringify host saved = Some (Some text) /\
                  get_prop saved "uuid" = Some (VStr key).

(** Where a move leaves a thought.  [text] was under [from]; [to_] is the
    key the move writes under.  In the store [d'] reached: [text] is still
    under [from]; or the record parsed from [text], with [updatedAt] and
    [uuid] set anew, serializes to a non-empty text, and that text is
    under [to_] unless the write request was rejected; or that very
    record did not serialize. *)
Definition kept_or_write_failed (host : Host) (run : Scenario) (w : world)
    (from to_ text : string) (d' : gmap string string) : Prop :=
  d' !! from = Some text \/
  exists parsed stamped moved,
    JSON_parse host text = Some parsed /\
    set_prop parsed "updatedAt" (VDate (Some (wallclock run (clk w))))
      = Some stamped /\
    set_prop stamped "uuid" (VStr to_) = Some moved /\
    ((exists written,
        stringify host moved = Some (Some written) /\ written <> "" /\
        (d' !! to_ = Some written \/ fate run (S (io w)) = Reject)) \/
     stringify host moved = None \/
     exists o, stringify host moved = Some o /\ falsy o = true).

(** A triple for the store's computations: from a store satisfying [P],
    [m] leads to a store satisfying [P], and a value it returns satisfies
    [Q]. *)
Definition stays (P : gmap string string -> Prop) {A} (m : M A) (Q : A -> Prop)
  : Prop :=
  forall w, P (disk w) ->
    P (disk (m w).2) /\ forall a, (m w).1 = Done a -> Q a.

(* ===================================================================== *)
(** * Strings                                                             *)
(* ===================================================================== *)

Section Strings.

Lemma prefix_app (p s : string) : String.prefix p (p +:+ s) = true.
Proof.
  induction p as [|c p IH]; simpl.
  - now destruct s.
  - destruct (ascii_dec c c) as [_|Hne]; [exact IH | now destruct Hne].
Qed.

Lemma startsWith_app (p s : string) : startsWith (p +:+ s) p = true.
Proof. apply prefix_app. Qed.

Lemma drop_chars_app (p s : string) : drop_chars (String.length p) (p +:+ s) = s.
Proof.
  induction p as [|c p IH]; simpl.
  - now destruct s.
  - exact IH.
Qed.

Lemma replace_unfold (s pat rep : string) :
  replace s pat rep =
  if String.prefix pat s then rep +:+ drop_chars (String.length pat) s
  else match s with
       | EmptyString => EmptyString
       | String c s' => String c (replace s' pat rep)
       end.
Proof. now destruct s. Qed.

(** Replacing a prefix swaps it and leaves the rest of the key alone. *)
Lemma replace_prefix (p r s : string) : replace (p +:+ s) p r = r +:+ s.
Proof.
  rewrite replace_unfold, prefix_app. now rewrite drop_chars_app.
Qed.

Lemma prefix_split (p s : string) :
  String.prefix p s = true -> s = p +:+ drop_chars (String.length p) s.
Proof.
  revert s. induction p as [|c p IH]; intros s H.
  - now destruct s.
  - destruct s as [|c' s]; simpl in H; [discriminate H |].
    destruct (ascii_dec c c') as [->|]; [| discriminate H].
    change (String c' s = String c' (p +:+ drop_chars (String.length p) s)).
    f_equal. now apply IH.
Qed.

(** The two namespaces are disjoint. *)
Lemma archived_not_live (id : string) :
  startsWith (DELETED_KEY_PREFIX +:+ id) THOUGHTS_KEY_PREFIX = false.
Proof. reflexivity. Qed.

Lemma archived_is_thought_key (id : string) :
  thought_key (DELETED_KEY_PREFIX +:+ id) = true.
Proof.
  unfold thought_key. rewrite startsWith_app. apply orb_true_r.
Qed.

Lemma live_is_thought_key (id : string) :
  thought_key (THOUGHTS_KEY_PREFIX +:+ id) = true.
Proof. unfold thought_key. now rewrite startsWith_app. Qed.

Lemma live_ne_archived (id id' : string) :
  THOUGHTS_KEY_PREFIX +:+ id <> DELETED_KEY_PREFIX +:+ id'.
Proof. intros H. cbv in H. discriminate H. Qed.

Lemma falsy_false (o : option string) :
  falsy o = false <-> exists s, o = Some s /\ s <> "".
Proof.
  destruct o as [s|]; simpl.
  - rewrite String.eqb_neq. split; [eauto | now intros (? & [= <-] & ?)].
  - split; [discriminate | now intros (? & ? & _)].
Qed.

End Strings.

(* ===================================================================== *)
(** * The expiry test and the loop of getExercises                        *)
(* ===================================================================== *)

Section Loading.

Context (host : Host) (run : Scenario).

(** The minute of the hour lies between 0 and 59. *)
Lemma getMinutes_range (tza : Z -> Z) (d : date) (m : Z) :
  getMinutes tza d = Some m -> (0 <= m <= 59)%Z.
Proof.
  destruct d as [t|]; simpl; [| discriminate].
  intros [= <-].
  pose proof (Z.mod_pos_bound ((t + tza t) / 60000) 60 ltac:(lia)). lia.
Qed.

(** The difference of two minutes of the hour never exceeds a week. *)
Lemma minutes_apart_small (tza : Z -> Z) (now d : date) :
  gt (minus (getMinutes tza now) (getMinutes tza d)) EXPIRY_MINUTES = false.
Proof.
  destruct (getMinutes tza now) as [a|] eqn:Ha; [| reflexivity].
  destruct (getMinutes tza d) as [b|] eqn:Hb; [| reflexivity].
  apply getMinutes_range in Ha, Hb. simpl.
  apply Z.ltb_ge. unfold EXPIRY_MINUTES. lia.
Qed.

Lemma isExpired_false (d : date) (w : world) :
  isExpired host run d w = (Done false, tick w).
Proof.
  unfold isExpired, bind, new_Date, ret. now rewrite minutes_apart_small.
Qed.

(** One turn of the loop, spelled out: it throws, or files the thought
    under [savedThoughts] or [deletedThoughts]; it never adds to
    [outdatedDeletedThoughts]. *)
Lemma sort_row_eq (x : row) (acc : sorting) (w : world) :
  sort_row host run x acc w =
  match JSON_parse host (item_text x.2) with
  | None => (Threw, w)
  | Some v =>
      if startsWith x.1 THOUGHTS_KEY_PREFIX then
        (Done ({| savedThoughts := savedThoughts acc.1 ++ [v];
                  deletedThoughts := deletedThoughts acc.1 |}, acc.2), w)
      else
        match get_prop v "updatedAt" with
        | None => (Threw, w)
        | Some _ =>
            (Done ({| savedThoughts := savedThoughts acc.1;
                      deletedThoughts := deletedThoughts acc.1 ++ [v] |}, acc.2),
             tick w)
        end
  end.
Proof.
  unfold sort_row, bind, call.
  destruct (JSON_parse host (item_text x.2)) as [v|]; [| reflexivity].
  unfold ret at 1.
  destruct (startsWith x.1 THOUGHTS_KEY_PREFIX); [reflexivity |].
  destruct (get_prop v "updatedAt") as [u|]; [| reflexivity].
  unfold ret at 1. now rewrite isExpired_false.
Qed.


Lemma forEach_cons (x : row) (rows : list row) (acc : sorting) (w : world) :
  forEach host run (x :: rows) acc w =
  match sort_row host run x acc w with
  | (Done acc', w') => forEach host run rows acc' w'
  | (Threw, w') => (Threw, w')
  | (Halted, w') => (Halted, w')
  end.
Proof. reflexivity. Qed.

(** Unfold one turn of the loop and split on what the turn did. *)
Ltac turn :=
  rewrite forEach_cons, sort_row_eq;
  repeat match goal with
    | |- context [match JSON_parse ?h ?s with _ => _ end] =>
        destruct (JSON_parse h s) eqn:?
    | |- context [if startsWith ?k ?p then _ else _] =>
        destruct (startsWith k p) eqn:?
    | |- context [match get_prop ?v ?k with _ => _ end] =>
        destruct (get_prop v k) eqn:?
    end.

(** The loop leaves storage alone. *)
Lemma forEach_inert (rows : list row) (acc : sorting) (w : world) :
  disk (forEach host run rows acc w).2 = disk w /\
  io (forEach host run rows acc w).2 = io w.
Proof.
  revert acc w. induction rows as [|x rows IH]; intros acc w; [done |].
  turn; try done; first [apply IH | exact (IH _ (tick w))].
Qed.

(** It ends normally or by an exception, and declares nothing outdated. *)
Lemma forEach_outcome (rows : list row) (acc : sorting) (w : world) :
  (forEach host run rows acc w).1 = Threw \/
  exists acc', (forEach host run rows acc w).1 = Done acc' /\ acc'.2 = acc.2.
Proof.
  revert acc w. induction rows as [|x rows IH]; intros acc w.
  - right. now exists acc.
  - turn; try (now left);
      match goal with
      | |- context [forEach _ _ _ ?a ?w'] => exact (IH a w')
      end.
Qed.

(** Whatever the loop returns was parsed from one of the rows, live keys to
    [savedThoughts], the others to [deletedThoughts]. *)
Lemma forEach_sound (rows : list row) (acc acc' : sorting) (w : world) :
  (forEach host run rows acc w).1 = Done acc' ->
  (forall v, v ∈ savedThoughts acc'.1 ->
     v ∈ savedThoughts acc.1 \/
     exists x, x ∈ rows /\ startsWith x.1 THOUGHTS_KEY_PREFIX = true /\
               JSON_parse host (item_text x.2) = Some v) /\
  (forall v, v ∈ deletedThoughts acc'.1 ->
     v ∈ deletedThoughts acc.1 \/
     exists x, x ∈ rows /\ startsWith x.1 THOUGHTS_KEY_PREFIX = false /\
               JSON_parse host (item_text x.2) = Some v).
Proof.
  revert acc w. induction rows as [|x rows IH]; intros acc w.
  - intros [= ->]. split; intros v Hv; now left.
  - turn; try discriminate; intros Hrun; apply IH in Hrun as [Hs Hd]; simpl in *;
      split; intros v' Hv'.
    + destruct (Hs v' Hv') as [Hold|(y & Hy & ?)].
      * apply elem_of_app in Hold as [Hold|Hnew]; [now left |].
        apply list_elem_of_singleton in Hnew as ->.
        right. exists x. split; [left | done].
      * right. exists y. split; [now right | done].
    + destruct (Hd v' Hv') as [Hold|(y & Hy & ?)]; [now left |].
      right. exists y. split; [now right | done].
    + destruct (Hs v' Hv') as [Hold|(y & Hy & ?)]; [now left |].
      right. exists y. split; [now right | done].
    + destruct (Hd v' Hv') as [Hold|(y & Hy & ?)].
      * apply elem_of_app in Hold as [Hold|Hnew]; [now left |].
        apply list_elem_of_singleton in Hnew as ->.
        right. exists x. split; [left | done].
      * right. exists y. split; [now right | done].
Qed.

Lemma elem_of_snoc_old {A} (l : list A) (x y : A) : x ∈ l -> x ∈ l ++ [y].
Proof. intros Hx. apply elem_of_app. now left. Qed.

Lemma elem_of_snoc_new {A} (l : list A) (y : A) : y ∈ l ++ [y].
Proof. apply elem_of_app. right. now apply list_elem_of_singleton. Qed.

(** Every row is filed, and nothing filed is dropped again. *)
Lemma forEach_complete (rows : list row) (acc acc' : sorting) (w : world) :
  (forEach host run rows acc w).1 = Done acc' ->
  (forall v, v ∈ savedThoughts acc.1 -> v ∈ savedThoughts acc'.1) /\
  (forall v, v ∈ deletedThoughts acc.1 -> v ∈ deletedThoughts acc'.1) /\
  (forall x v, x ∈ rows -> JSON_parse host (item_text x.2) = Some v ->
     if startsWith x.1 THOUGHTS_KEY_PREFIX then v ∈ savedThoughts acc'.1
     else v ∈ deletedThoughts acc'.1).
Proof.
  revert acc w. induction rows as [|x rows IH]; intros acc w.
  - intros [= ->]. repeat split; try done. intros x v Hx. inversion Hx.
  - turn; try discriminate; intros Hrun;
      apply IH in Hrun as (Hs & Hd & Hrows); simpl in *;
      (split; [| split]);
      try (intros v' Hv';
           first [apply Hs | apply Hd];
           first [exact Hv' | now apply elem_of_snoc_old]);
      intros y v' Hy Hparse; apply elem_of_cons in Hy as [->|Hy];
      try (now apply Hrows);
      assert (v' = v) as -> by congruence;
      match goal with H : startsWith _ _ = _ |- _ => rewrite H end;
      first [apply Hs | apply Hd]; apply elem_of_snoc_new.
Qed.

(** One value that does not parse makes the whole loop throw. *)
Lemma forEach_throws (rows : list row) (acc : sorting) (w : world) (x : row) :
  x ∈ rows -> JSON_parse host (item_text x.2) = None ->
  (forEach host run rows acc w).1 = Threw.
Proof.
  intros Hx Hbad. revert acc w.
  induction rows as [|y rows IH]; intros acc w; [inversion Hx |].
  apply elem_of_cons in Hx as [<-|Hx].
  - rewrite forEach_cons, sort_row_eq, Hbad. reflexivity.
  - turn; try reflexivity; now apply IH.
Qed.

(** When every row parses, and the archived ones are not [null], the loop
    ends normally. *)
Lemma forEach_total (rows : list row) (acc : sorting) (w : world) :
  (forall x, x ∈ rows ->
     exists v, JSON_parse host (item_text x.2) = Some v /\
               (startsWith x.1 THOUGHTS_KEY_PREFIX = false ->
                is_Some (get_prop v "updatedAt"))) ->
  exists acc', (forEach host run rows acc w).1 = Done acc'.
Proof.
  revert acc w. induction rows as [|x rows IH]; intros acc w Hall.
  - now exists acc.
  - destruct (Hall x) as (v & Hv & Hu); [left |].
    assert (Hrest : forall y, y ∈ rows ->
              exists v, JSON_parse host (item_text y.2) = Some v /\
                        (startsWith y.1 THOUGHTS_KEY_PREFIX = false ->
                         is_Some (get_prop v "updatedAt")))
      by (intros y Hy; apply Hall; now right).
    rewrite forEach_cons, sort_row_eq, Hv.
    destruct (startsWith x.1 THOUGHTS_KEY_PREFIX); [now apply IH |].
    destruct Hu as [u ->]; [done |]. now apply IH.
Qed.

(** The rows are the thought keys that hold a non-empty value. *)
Lemma elem_of_rows_of (d : gmap string string) (x : row) :
  x ∈ rows_of d <->
  exists text, x = (x.1, Some text) /\ d !! x.1 = Some text /\
               thought_key x.1 = true /\ text <> "".
Proof.
  unfold rows_of. rewrite list_elem_of_In, filter_In, in_map_iff.
  split.
  - intros ((k & <- & Hk) & Htruthy).
    apply filter_In in Hk as [Hk Hkey].
    apply list_elem_of_In, list_elem_of_fmap in Hk as ([k' text] & -> & Hk).
    apply elem_of_map_to_list in Hk. simpl in *.
    unfold row_truthy in Htruthy. simpl in Htruthy. rewrite Hk in *.
    apply negb_true_iff, falsy_false in Htruthy as (s & [= <-] & Hs).
    eauto.
  - intros (text & Hx & Hd & Hkey & Htext).
    destruct x as [k o]. simpl in *. injection Hx as ->.
    split.
    + exists k. rewrite Hd. split; [done |].
      apply filter_In. split; [| done].
      apply list_elem_of_In, list_elem_of_fmap. exists (k, text).
      split; [done |]. now apply elem_of_map_to_list.
    + unfold row_truthy. simpl. rewrite negb_true_iff. now apply String.eqb_neq.
Qed.

End Loading.

(* ===================================================================== *)
(** * getExercises                                                        *)
(* ===================================================================== *)

Section Reading.

Context (host : Host) (run : Scenario).

(** [getExercises], request by request. *)
Lemma getExercises_eq (w : world) :
  getExercises host run w =
  match fate run (io w) with
  | Reject => (Done no_thoughts, asked w)
  | Crash => (Halted, asked w)
  | Pass =>
      match fate run (S (io w)) with
      | Reject => (Done no_thoughts, asked (asked w))
      | Crash => (Halted, asked (asked w))
      | Pass =>
          match forEach host run (rows_of (disk w)) (no_thoughts, [])
                        (asked (asked w)) with
          | (Done sorted, w') =>
              match multiRemove_detached run sorted.2 w' with
              | (Done _, w'') => (Done sorted.1, w'')
              | (Threw, w'') => (Done no_thoughts, w'')
              | (Halted, w'') => (Halted, w'')
              end
          | (Threw, w') => (Done no_thoughts, w')
          | (Halted, w') => (Halted, w')
          end
      end
  end.
Proof.
  unfold getExercises, try_catch, bind, getAllKeys, multiGet, request, rows_of.
  destruct (fate run (io w)); try reflexivity. simpl.
  destruct (fate run (S (io w))); try reflexivity. simpl.
  change (set_disk (disk w) (asked (set_disk (disk w) (asked w))))
    with (asked (asked w)).
  destruct (forEach host run _ _ _) as [[sorted| |] w']; try reflexivity.
  destruct (multiRemove_detached run sorted.2 w') as [[[]| |] w'']; reflexivity.
Qed.

(** The detached [multiRemove] never throws, and asked to remove nothing it
    removes nothing. *)
Lemma multiRemove_detached_nil (w : world) :
  (multiRemove_detached run [] w).1 <> Threw /\
  disk (multiRemove_detached run [] w).2 = disk w /\
  (fate run (io w) <> Crash ->
   (multiRemove_detached run [] w).1 = Done tt).
Proof.
  unfold multiRemove_detached, try_catch, request, ret.
  destruct (fate run (io w)); simpl; repeat split; congruence.
Qed.

(** A load never writes to storage or removes from it. *)
Lemma getExercises_disk (w : world) :
  disk (getExercises host run w).2 = disk w.
Proof.
  rewrite getExercises_eq.
  destruct (fate run (io w)); try reflexivity.
  destruct (fate run (S (io w))); try reflexivity.
  pose proof (forEach_inert host run (rows_of (disk w)) (no_thoughts, [])
                (asked (asked w))) as [Hdisk _].
  pose proof (forEach_outcome host run (rows_of (disk w)) (no_thoughts, [])
                (asked (asked w))) as Hout.
  destruct (forEach host run _ _ _) as [[sorted| |] w']; simpl in *;
    try assumption.
  destruct Hout as [Hout|(acc' & [= <-] & Hnil)]; [discriminate Hout |].
  simpl in Hnil. rewrite Hnil.
  pose proof (multiRemove_detached_nil w') as (_ & Hsame & _).
  destruct (multiRemove_detached run [] w') as [[[]| |] w'']; simpl in *;
    congruence.
Qed.

(** A load never raises. *)
Lemma getExercises_no_throw (w : world) :
  (getExercises host run w).1 <> Threw.
Proof.
  rewrite getExercises_eq.
  destruct (fate run (io w)); try discriminate.
  destruct (fate run (S (io w))); try discriminate.
  destruct (forEach host run _ _ _) as [[sorted| |] w']; try discriminate.
  destruct (multiRemove_detached run sorted.2 w') as [[[]| |] w''];
    discriminate.
Qed.

(** Every thought a load returns was parsed from a stored value: a live key
    for [savedThoughts], another thought key for [deletedThoughts]. *)
Lemma getExercises_sound (w : world) (r : StoredThoughts) :
  (getExercises host run w).1 = Done r ->
  (forall v, v ∈ savedThoughts r ->
     exists key text, disk w !! key = Some text /\ text <> "" /\
       startsWith key THOUGHTS_KEY_PREFIX = true /\
       JSON_parse host text = Some v) /\
  (forall v, v ∈ deletedThoughts r ->
     exists key text, disk w !! key = Some text /\ text <> "" /\
       startsWith key THOUGHTS_KEY_PREFIX = false /\
       startsWith key DELETED_KEY_PREFIX = true /\
       JSON_parse host text = Some v).
Proof.
  assert (Hnone : forall r', r' = no_thoughts ->
            (forall v, v ∈ savedThoughts r' -> False) /\
            (forall v, v ∈ deletedThoughts r' -> False)).
  { intros r' ->. split; intros v Hv; inversion Hv. }
  rewrite getExercises_eq. intros Hrun.
  assert (Hcases :
    r = no_thoughts \/
    exists sorted w', forEach host run (rows_of (disk w)) (no_thoughts, [])
                        (asked (asked w)) = (Done sorted, w') /\ r = sorted.1).
  { destruct (fate run (io w)); simpl in Hrun;
      [| left; congruence | discriminate Hrun].
    destruct (fate run (S (io w))); simpl in Hrun;
      [| left; congruence | discriminate Hrun].
    destruct (forEach host run _ _ _) as [[sorted| |] w'] eqn:Hloop;
      simpl in Hrun; [| left; congruence | discriminate Hrun].
    destruct (multiRemove_detached run sorted.2 w') as [[[]| |] w''];
      simpl in Hrun; [| left; congruence | discriminate Hrun].
    right. exists sorted, w'. split; [reflexivity | congruence]. }
  destruct Hcases as [Hempty|(sorted & w' & Hloop & ->)].
  { destruct (Hnone r Hempty) as [Hs Hd].
    split; intros v Hv; [destruct (Hs v Hv) | destruct (Hd v Hv)]. }
  pose proof (forEach_sound host run (rows_of (disk w)) (no_thoughts, [])
                sorted (asked (asked w))) as Hsound.
  rewrite Hloop in Hsound. destruct (Hsound eq_refl) as [Hs Hd].
  split; intros v Hv.
  - destruct (Hs v Hv) as [Hin|(x & Hx & Hlive & Hparse)]; [inversion Hin |].
    apply elem_of_rows_of in Hx as (text & Hxeq & Hlook & _ & Hne).
    rewrite Hxeq in Hparse. simpl in Hparse. eauto 10.
  - destruct (Hd v Hv) as [Hin|(x & Hx & Hlive & Hparse)]; [inversion Hin |].
    apply elem_of_rows_of in Hx as (text & Hxeq & Hlook & Hkey & Hne).
    rewrite Hxeq in Hparse. simpl in Hparse.
    unfold thought_key in Hkey. rewrite Hlive in Hkey. simpl in Hkey.
    eauto 10.
Qed.

(** On a loadable store with storage at work, a load returns every thought
    stored under a non-empty value. *)
Lemma getExercises_complete (w : world) :
  fate run (io w) = Pass -> fate run (S (io w)) = Pass ->
  fate run (S (S (io w))) <> Crash ->
  loadable host (disk w) ->
  exists r, (getExercises host run w).1 = Done r /\
    forall key text v,
      disk w !! key = Some text -> thought_key key = true -> text <> "" ->
      JSON_parse host text = Some v ->
      if startsWith key THOUGHTS_KEY_PREFIX then v ∈ savedThoughts r
      else v ∈ deletedThoughts r.
Proof.
  intros H0 H1 H2 Hload. rewrite getExercises_eq, H0, H1.
  destruct (forEach_total host run (rows_of (disk w)) (no_thoughts, [])
              (asked (asked w))) as [sorted Hloop].
  { intros x Hx. apply elem_of_rows_of in Hx as (text & Hxeq & Hlook & Hkey & Hne).
    destruct (Hload _ _ Hlook Hkey Hne) as (v & Hv & Hu).
    exists v. rewrite Hxeq. simpl. auto. }
  pose proof (forEach_outcome host run (rows_of (disk w)) (no_thoughts, [])
                (asked (asked w))) as Hout.
  pose proof (forEach_inert host run (rows_of (disk w)) (no_thoughts, [])
                (asked (asked w))) as [_ Hio].
  pose proof (forEach_complete host run (rows_of (disk w)) (no_thoughts, [])
                sorted (asked (asked w)) Hloop) as (_ & _ & Hall).
  destruct (forEach host run _ _ _) as [[sorted'| |] w'] eqn:E;
    simpl in Hloop; try discriminate Hloop.
  injection Hloop as ->.
  destruct Hout as [Hout|(acc' & [= <-] & Hnil)]; [discriminate Hout |].
  simpl in Hnil, Hio. rewrite Hnil.
  pose proof (multiRemove_detached_nil w') as (_ & _ & Hdone).
  rewrite Hio in Hdone. specialize (Hdone H2).
  destruct (multiRemove_detached run [] w') as [[[]| |] w''];
    simpl in Hdone; try discriminate Hdone.
  exists sorted.1. split; [reflexivity |].
  intros key text v Hlook Hkey Hne Hparse.
  apply (Hall (key, Some text) v); [| exact Hparse].
  apply elem_of_rows_of. exists text. auto.
Qed.

(** A stored value that does not parse empties the whole load. *)
Lemma getExercises_corrupt (w : world) (key text : string) :
  fate run (io w) = Pass -> fate run (S (io w)) = Pass ->
  disk w !! key = Some text -> thought_key key = true -> text <> "" ->
  JSON_parse host text = None ->
  (getExercises host run w).1 = Done no_thoughts.
Proof.
  intros H0 H1 Hlook Hkey Hne Hbad. rewrite getExercises_eq, H0, H1.
  pose proof (forEach_throws host run (rows_of (disk w)) (no_thoughts, [])
                (asked (asked w)) (key, Some text)) as Hthrow.
  destruct (forEach host run _ _ _) as [[sorted| |] w'];
    [| reflexivity |]; simpl in Hthrow;
    (discriminate Hthrow; [apply elem_of_rows_of; exists text; auto | exact Hbad]).
Qed.

End Reading.

(* ===================================================================== *)
(** * What a load returns                                                 *)
(* ===================================================================== *)

Section ReadingClaims.

Import Device Examples.

(** C10.  [isExpired] subtracts two minutes of the hour.  Each lies between
    0 and 59, so the difference is at most 59 and never exceeds
    [EXPIRY_MINUTES] = 10080: [isExpired] answers [false] on every date
    (an invalid one included), the loop of [getExercises] never adds a key
    to [outdatedDeletedThoughts], and a load leaves storage as it found
    it: the sweep removes nothing. *)
Theorem isExpired_never (host : Host) (run : Scenario) :
  EXPIRY_MINUTES = 10080%Z /\
  (forall (now d : date) (m : Z),
     minus (getMinutes (LocalTZA host) now) (getMinutes (LocalTZA host) d) = Some m ->
     (m <= 59)%Z) /\
  (forall (d : date) (w : world), (isExpired host run d w).1 = Done false) /\
  (forall (rows : list row) (acc acc' : sorting) (w : world),
     (forEach host run rows acc w).1 = Done acc' -> acc'.2 = acc.2) /\
  (forall w : world, disk (getExercises host run w).2 = disk w).
Proof.
  split; [reflexivity |]. split; [| split; [| split]].
  - intros now d m.
    destruct (getMinutes (LocalTZA host) now) as [a|] eqn:Ha; [| discriminate].
    destruct (getMinutes (LocalTZA host) d) as [b|] eqn:Hb; [| discriminate].
    apply getMinutes_range in Ha, Hb. simpl. intros [= <-]. lia.
  - intros d w. now rewrite isExpired_false.
  - intros rows acc acc' w Hrun.
    destruct (forEach_outcome host run rows acc w) as [Hthrow|(a & Ha & Hsame)];
      congruence.
  - apply getExercises_disk.
Qed.

Lemma isExpired_never_witness :
  (isExpired device calm (Some (noon - (EXPIRY_MINUTES + 1) * 60000)%Z)
     (boot stale_archive)).1 = Done false /\
  disk (getExercises device calm (boot stale_archive)).2 = stale_archive.
Proof.
  destruct (isExpired_never device calm) as (_ & _ & Hnever & _ & Hdisk).
  split; [apply Hnever | apply (Hdisk (boot stale_archive))].
Defined.

(** C1, evaluated.  At 12:30 on 15 May a thought archived at 12:29 on
    8 May, one week and one minute earlier, is past the retention
    threshold.  [getExercises] returns it among the [deletedThoughts] all
    the same and removes nothing from storage. *)
Theorem getExercises_keeps_thought_past_threshold :
  construct_date (VStr "2019-05-08T12:29:00.000Z")
    = Some (noon - (EXPIRY_MINUTES + 1) * 60000)%Z /\
  stale_archive !! archived "a1" = Some (text stale_thought) /\
  (getExercises device calm (boot stale_archive)).1
    = Done {| savedThoughts := []; deletedThoughts := [stale_thought] |} /\
  disk (getExercises device calm (boot stale_archive)).2 = stale_archive.
Proof.
  split; [vm_compute; reflexivity |].
  split; [vm_compute; reflexivity |].
  split; [vm_compute; reflexivity |].
  apply (getExercises_disk device calm (boot stale_archive)).
Qed.

Lemma one_live_loadable : loadable device one_live.
Proof.
  intros key txt Hlook _ _. unfold one_live in Hlook.
  apply lookup_singleton_Some in Hlook as [<- <-].
  eexists. split; [vm_compute; reflexivity | intros _; vm_compute; eauto].
Qed.

Lemma mid_move_loadable : loadable device mid_move.
Proof.
  intros key txt Hlook _ _. unfold mid_move, one_live in Hlook.
  apply lookup_insert_Some in Hlook as [[<- <-]|[_ Hlook]].
  - eexists. split; [vm_compute; reflexivity | intros _; vm_compute; eauto].
  - apply lookup_singleton_Some in Hlook as [<- <-].
    eexists. split; [vm_compute; reflexivity | intros _; vm_compute; eauto].
Qed.

(** C3 fails as stated: next to a value that is not JSON, the good record
    stored under [@Quirk:thoughts:a1] is not returned; the load comes back
    empty. *)
Lemma getExercises_corrupt_entry_hides_good_record :
  exists v r,
    with_corrupt !! live "a1" = Some (text v) /\
    JSON_parse device (text v) = Some v /\
    with_corrupt !! live "b2" = Some "not json" /\
    (getExercises device calm (boot with_corrupt)).1 = Done r /\
    v ∉ savedThoughts r.
Proof.
  exists (thought (live "a1") "2019-05-01T10:00:00.000Z"), no_thoughts.
  repeat split; try (vm_compute; reflexivity).
  intros Hin. inversion Hin.
Qed.

(** C3, amended.  With storage at work, [getExercises] never raises; a row
    whose value is missing ([null]) or empty is dropped on its own; when
    every remaining value parses (archived ones to something other than
    [null]) the load returns exactly the parsed values, live keys under
    [savedThoughts] and archived keys under [deletedThoughts]; but a single
    remaining value that does not parse makes the load return two empty
    lists. *)
Theorem getExercises_tolerance (host : Host) (run : Scenario) (w : world) :
  fate run (io w) = Pass -> fate run (S (io w)) = Pass ->
  fate run (S (S (io w))) = Pass ->
  (getExercises host run w).1 <> Threw /\
  (forall key, row_truthy (key, None) = false /\
               row_truthy (key, Some "") = false) /\
  (forall x, x ∈ rows_of (disk w) <->
     exists text, x = (x.1, Some text) /\ disk w !! x.1 = Some text /\
                  thought_key x.1 = true /\ text <> "") /\
  ((exists key text, disk w !! key = Some text /\ thought_key key = true /\
                     text <> "" /\ JSON_parse host text = None) ->
   (getExercises host run w).1 = Done no_thoughts) /\
  (loadable host (disk w) ->
   exists r, (getExercises host run w).1 = Done r /\
     (forall v, v ∈ savedThoughts r <->
        exists key text, disk w !! key = Some text /\ text <> "" /\
          startsWith key THOUGHTS_KEY_PREFIX = true /\
          JSON_parse host text = Some v) /\
     (forall v, v ∈ deletedThoughts r <->
        exists key text, disk w !! key = Some text /\ text <> "" /\
          startsWith key THOUGHTS_KEY_PREFIX = false /\
          startsWith key DELETED_KEY_PREFIX = true /\
          JSON_parse host text = Some v)).
Proof.
  intros H0 H1 H2.
  split; [apply getExercises_no_throw |].
  split; [intros key; split; reflexivity |].
  split; [apply elem_of_rows_of |].
  split.
  - intros (key & txt & Hlook & Hkey & Hne & Hbad).
    now apply (getExercises_corrupt host run w key txt).
  - intros Hload.
    destruct (getExercises_complete host run w H0 H1) as (r & Hr & Hall);
      [congruence | assumption |].
    exists r. split; [exact Hr |].
    destruct (getExercises_sound host run w r Hr) as [Hs Hd].
    split; intros v; split.
    + apply Hs.
    + intros (key & txt & Hlook & Hne & Hlive & Hparse).
      specialize (Hall key txt v Hlook). rewrite Hlive in Hall.
      apply Hall; [| assumption..].
      unfold thought_key. now rewrite Hlive.
    + apply Hd.
    + intros (key & txt & Hlook & Hne & Hlive & Harch & Hparse).
      specialize (Hall key txt v Hlook). rewrite Hlive in Hall.
      apply Hall; [| assumption..].
      unfold thought_key. rewrite Harch. apply orb_true_r.
Qed.

Lemma getExercises_tolerance_witness :
  (getExercises device calm (boot with_corrupt)).1 = Done no_thoughts /\
  exists r, (getExercises device calm (boot one_live)).1 = Done r /\
            thought (live "a1") "2019-05-01T10:00:00.000Z" ∈ savedThoughts r.
Proof.
  split.
  - apply (getExercises_tolerance device calm (boot with_corrupt));
      try reflexivity.
    exists (live "b2"), "not json". vm_compute. repeat split. discriminate.
  - destruct (getExercises_tolerance device calm (boot one_live))
      as (_ & _ & _ & _ & Hgood); try reflexivity.
    destruct (Hgood one_live_loadable) as (r & Hr & Hsaved & _).
    exists r. split; [exact Hr |]. apply Hsaved.
    exists (live "a1"), (text (thought (live "a1") "2019-05-01T10:00:00.000Z")).
    vm_compute. repeat split. discriminate.
Defined.

End ReadingClaims.

(* ===================================================================== *)
(** * Records                                                             *)
(* ===================================================================== *)

Section Records.

Context {A : Type}.

Lemma assoc_get_set_eq (k : string) (x : A) (l : list (string * A)) :
  assoc_get k (assoc_set k x l) = Some x.
Proof.
  induction l as [|[k' y] l IH]; simpl.
  - now rewrite String.eqb_refl.
  - destruct (String.eqb k k') eqn:E; simpl.
    + now rewrite String.eqb_refl.
    + now rewrite E.
Qed.

Lemma assoc_get_set_ne (k k' : string) (x : A) (l : list (string * A)) :
  k <> k' -> assoc_get k (assoc_set k' x l) = assoc_get k l.
Proof.
  intros Hne. induction l as [|[k0 y] l IH]; simpl.
  - apply String.eqb_neq in Hne. now rewrite Hne.
  - destruct (String.eqb k' k0) eqn:E; simpl.
    + apply String.eqb_eq in E as <-.
      apply String.eqb_neq in Hne. now rewrite Hne.
    + destruct (String.eqb k k0); [reflexivity | exact IH].
Qed.

(** Spreading a record over a literal leaves alone the literal's fields
    that the record does not have. *)
Lemma assoc_get_spread (k : string) (fields literal : list (string * A)) :
  assoc_get k fields = None ->
  assoc_get k (fold_left (fun acc kv => assoc_set kv.1 kv.2 acc) fields literal)
  = assoc_get k literal.
Proof.
  revert literal. induction fields as [|[k' y] fields IH]; intros literal Hk.
  - reflexivity.
  - simpl in *. destruct (String.eqb k k') eqn:E; [discriminate Hk |].
    rewrite IH by exact Hk. apply assoc_get_set_ne. now apply String.eqb_neq.
Qed.

End Records.

Lemma get_set_prop_eq (v v' x : value) (k : string) :
  set_prop v k x = Some v' -> get_prop v' k = Some x.
Proof.
  destruct v; simpl; try discriminate; intros [= <-]; simpl;
    now rewrite assoc_get_set_eq.
Qed.

Lemma get_set_prop_ne (v v' x : value) (k k' : string) :
  set_prop v k x = Some v' -> k' <> k -> get_prop v' k' = get_prop v k'.
Proof.
  destruct v; simpl; try discriminate; intros [= <-] Hne; simpl;
    now rewrite assoc_get_set_ne.
Qed.

(** A value with a [uuid] is an object or an array: it takes fields. *)
Lemma set_prop_defined (v x : value) (k id : string) :
  get_prop v "uuid" = Some (VStr id) -> is_Some (set_prop v k x).
Proof. destruct v; simpl; try discriminate; eauto. Qed.

(* ===================================================================== *)
(** * Reasoning about the store's computations                            *)
(* ===================================================================== *)

Section Triples.

Context (host : Host) (run : Scenario) (P : gmap string string -> Prop).

Lemma stays_ret {A} (a : A) (Q : A -> Prop) : Q a -> stays P (ret a) Q.
Proof. intros Ha w Hw. split; [exact Hw | now intros a' [= <-]]. Qed.

Lemma stays_throw {A} (Q : A -> Prop) : stays P throw Q.
Proof. intros w Hw. split; [exact Hw | discriminate]. Qed.

Lemma stays_call {A} (o : option A) : stays P (call o) (fun a => o = Some a).
Proof.
  destruct o as [a|]; [| apply stays_throw].
  apply stays_ret. reflexivity.
Qed.

Lemma stays_bind {A B} (m : M A) (k : A -> M B) (Q : A -> Prop) (R : B -> Prop) :
  stays P m Q -> (forall a, Q a -> stays P (k a) R) -> stays P (bind m k) R.
Proof.
  intros Hm Hk w Hw. unfold bind.
  destruct (Hm w Hw) as [Hdisk Hval].
  destruct (m w) as [[a| |] w']; simpl in *.
  - apply Hk; auto.
  - split; [exact Hdisk | discriminate].
  - split; [exact Hdisk | discriminate].
Qed.

Lemma stays_try {A} (m h : M A) (Q : A -> Prop) :
  stays P m Q -> stays P h Q -> stays P (try_catch m h) Q.
Proof.
  intros Hm Hh w Hw. unfold try_catch.
  destruct (Hm w Hw) as [Hdisk Hval].
  destruct (m w) as [[a| |] w']; simpl in *.
  - split; [exact Hdisk | exact Hval].
  - now apply Hh.
  - split; [exact Hdisk | discriminate].
Qed.

Lemma stays_weaken {A} (m : M A) (Q Q' : A -> Prop) :
  stays P m Q -> (forall a, Q a -> Q' a) -> stays P m Q'.
Proof.
  intros Hm Himp w Hw. destruct (Hm w Hw) as [Hdisk Hval]. auto.
Qed.

Lemma stays_request {A} (effect : gmap string string -> A * gmap string string) :
  (forall d, P d -> P (effect d).2) ->
  stays P (request run effect) (fun _ => True).
Proof.
  intros Heffect w Hw. unfold request.
  destruct (fate run (io w)); simpl; auto.
Qed.

Lemma stays_new_Date : stays P (new_Date run) (fun _ => True).
Proof. intros w Hw. simpl. auto. Qed.

Lemma stays_fresh_uuid : stays P (fresh_uuid run) (fun _ => True).
Proof. intros w Hw. simpl. auto. Qed.

End Triples.

(* ===================================================================== *)
(** * saveThought and saveExercise                                        *)
(* ===================================================================== *)

Section Saving.

Context (host : Host) (run : Scenario).

(** [saveThought], case by case. *)
Lemma saveThought_eq (saveableThought : value) (w : world) :
  saveThought host run saveableThought w =
  match stringify host saveableThought with
  | None => (Done saveableThought, w)
  | Some thoughtString =>
      if falsy thoughtString then (Done saveableThought, w)
      else
        match get_prop saveableThought "uuid" with
        | Some (VStr key) =>
            match fate run (io w) with
            | Pass =>
                (Done saveableThought,
                 set_disk (<[key := default "" thoughtString]> (disk w)) (asked w))
            | Reject => (Done saveableThought, asked w)
            | Crash => (Halted, asked w)
            end
        | _ => (Done saveableThought, w)
        end
  end.
Proof.
  unfold saveThought, try_catch, bind, call.
  destruct (stringify host saveableThought) as [o|]; [| reflexivity].
  unfold ret at 1. destruct (falsy o); [reflexivity |].
  destruct (get_prop saveableThought "uuid") as [[]|]; try reflexivity.
  unfold ret at 1, setItem, request.
  destruct (fate run (io w)); reflexivity.
Qed.

(** [saveThought] hands back the record it was given. *)
Lemma saveThought_returns (saveableThought r : value) (w : world) :
  (saveThought host run saveableThought w).1 = Done r -> r = saveableThought.
Proof.
  rewrite saveThought_eq.
  destruct (stringify host saveableThought) as [o|]; [| now intros [= <-]].
  destruct (falsy o); [now intros [= <-] |].
  destruct (get_prop saveableThought "uuid") as [[]|]; try (now intros [= <-]).
  destruct (fate run (io w)); simpl; congruence.
Qed.

Lemma grown_refl (d : gmap string string) : grown_by_records host d d.
Proof. intros key txt Hlook. now left. Qed.

Lemma grown_delete (d0 d : gmap string string) (key : string) :
  grown_by_records host d0 d -> grown_by_records host d0 (delete key d).
Proof.
  intros Hd k txt Hlook. apply lookup_delete_Some in Hlook as [_ Hlook].
  now apply Hd.
Qed.

Lemma grown_insert (d0 d : gmap string string) (saved : value) (key text : string) :
  stringify host saved = Some (Some text) ->
  get_prop saved "uuid" = Some (VStr key) ->
  grown_by_records host d0 d ->
  grown_by_records host d0 (<[key := text]> d).
Proof.
  intros Hs Hu Hd k txt Hlook.
  apply lookup_insert_Some in Hlook as [[<- <-]|[_ Hlook]]; [eauto |].
  now apply Hd.
Qed.

(** What [saveThought] writes, it writes under the record's [uuid]. *)
Lemma saveThought_stays (d0 : gmap string string) (saveableThought : value) :
  stays (grown_by_records host d0) (saveThought host run saveableThought)
        (fun r => r = saveableThought).
Proof.
  intros w Hw. split; [| intros a; apply saveThought_returns].
  rewrite saveThought_eq.
  destruct (stringify host saveableThought) as [[txt|]|] eqn:Hs; try exact Hw.
  simpl. destruct (String.eqb txt ""); [exact Hw |].
  destruct (get_prop saveableThought "uuid") as [[]|] eqn:Hu; try exact Hw.
  destruct (fate run (io w)); simpl; try exact Hw.
  now apply (grown_insert d0 (disk w) saveableThought).
Qed.

Lemma saveExercise_stays (d0 : gmap string string) (thought : value) :
  stays (grown_by_records host d0) (saveExercise host run thought)
        (fun _ => True).
Proof.
  unfold saveExercise.
  eapply stays_bind; [apply stays_call |]. intros uuid _.
  destruct uuid;
    try (eapply stays_bind; [apply stays_new_Date |]; intros now _;
         eapply stays_bind; [apply stays_call |]; intros saveable _;
         eapply stays_weaken; [apply saveThought_stays | done]).
  eapply stays_bind; [apply stays_fresh_uuid |]. intros id _.
  eapply stays_bind; [apply stays_new_Date |]. intros createdAt _.
  eapply stays_bind; [apply stays_new_Date |]. intros updatedAt _.
  eapply stays_weaken; [apply saveThought_stays | done].
Qed.

Lemma removeItem_stays (d0 : gmap string string) (key : string) :
  stays (grown_by_records host d0) (removeItem run key) (fun _ => True).
Proof. apply stays_request. intros d Hd. now apply grown_delete. Qed.

Lemma getItem_stays (d0 : gmap string string) (key : string) :
  stays (grown_by_records host d0) (getItem run key) (fun _ => True).
Proof. apply stays_request. intros d Hd. exact Hd. Qed.

Lemma deleteExercise_stays (d0 : gmap string string) (uuid : string) :
  stays (grown_by_records host d0) (deleteExercise host run uuid)
        (fun _ => True).
Proof.
  unfold deleteExercise.
  apply stays_try; [| now apply stays_ret].
  eapply stays_bind; [apply getItem_stays |]. intros item _.
  eapply stays_bind; [apply stays_call |]. intros thought _.
  eapply stays_bind; [apply stays_new_Date |]. intros now _.
  eapply stays_bind; [apply stays_call |]. intros thought1 _.
  destruct (startsWith uuid THOUGHTS_KEY_PREFIX); [| apply removeItem_stays].
  eapply stays_bind; [apply stays_call |]. intros thought2 _.
  eapply stays_bind; [apply saveThought_stays |]. intros _ _.
  apply removeItem_stays.
Qed.

Lemma restoreExercise_stays (d0 : gmap string string) (uuid : string) :
  stays (grown_by_records host d0) (restoreExercise host run uuid)
        (fun _ => True).
Proof.
  unfold restoreExercise.
  apply stays_try; [| now apply stays_ret].
  eapply stays_bind; [apply getItem_stays |]. intros item _.
  eapply stays_bind; [apply stays_call |]. intros thought _.
  eapply stays_bind; [apply stays_new_Date |]. intros now _.
  eapply stays_bind; [apply stays_call |]. intros thought1 _.
  eapply stays_bind; [apply stays_call |]. intros thought2 _.
  eapply stays_bind; [apply saveThought_stays |]. intros _ _.
  apply removeItem_stays.
Qed.

Lemma keyed_grown (d d' : gmap string string) :
  keyed_by_uuid host d -> grown_by_records host d d' -> keyed_by_uuid host d'.
Proof.
  intros Hd Hgrown key txt Hlook Hkey.
  destruct (Hgrown key txt Hlook) as [Hold|Hnew]; [now apply Hd | exact Hnew].
Qed.

End Saving.

(* ===================================================================== *)
(** * Saving                                                              *)
(* ===================================================================== *)

Section SavingClaims.

Import Device Examples.

Lemma one_live_keyed : keyed_by_uuid device one_live.
Proof.
  intros key txt Hlook _. unfold one_live in Hlook.
  apply lookup_singleton_Some in Hlook as [<- <-].
  exists (thought (live "a1") "2019-05-01T10:00:00.000Z").
  split; reflexivity.
Qed.

(** With storage at work [saveThought] returns its record, and a record
    that serializes to a non-empty text is stored under its [uuid]. *)
Lemma saveThought_done (host : Host) (run : Scenario) (saved : value) (w : world) :
  fate run (io w) = Pass ->
  exists w', saveThought host run saved w = (Done saved, w') /\
    forall text key,
      stringify host saved = Some (Some text) -> text <> "" ->
      get_prop saved "uuid" = Some (VStr key) ->
      disk w' = <[key := text]> (disk w).
Proof.
  intros Hpass. rewrite saveThought_eq, Hpass.
  destruct (stringify host saved) as [[txt|]|] eqn:Hs; simpl.
  - destruct (String.eqb txt "") eqn:Hempty.
    + eexists. split; [reflexivity |]. intros text key [= <-] Hne.
      now apply String.eqb_eq in Hempty.
    + destruct (get_prop saved "uuid") as [[]|] eqn:Hu;
        (eexists; split; [reflexivity |]);
        intros text key [= <-] _ [= <-]. reflexivity.
  - eexists. split; [reflexivity |]. discriminate.
  - eexists. split; [reflexivity |]. discriminate.
Qed.

(** C9.  Whatever [saveExercise], [deleteExercise] (archive) and
    [restoreExercise] add to storage is the serialization of a record
    written under the key equal to that record's [uuid] field; so when
    every thought key of the store holds a record whose [uuid] is its key,
    the same is true after each of the three operations, whatever the
    fate of their storage requests.  The prefix of a stored [uuid] is thus
    the prefix of the key it is stored under. *)
Theorem writes_keep_uuid_equal_to_key (host : Host) (run : Scenario) (w : world) :
  keyed_by_uuid host (disk w) ->
  (forall thought,
     grown_by_records host (disk w) (disk (saveExercise host run thought w).2) /\
     keyed_by_uuid host (disk (saveExercise host run thought w).2)) /\
  (forall uuid,
     grown_by_records host (disk w) (disk (deleteExercise host run uuid w).2) /\
     keyed_by_uuid host (disk (deleteExercise host run uuid w).2)) /\
  (forall uuid,
     grown_by_records host (disk w) (disk (restoreExercise host run uuid w).2) /\
     keyed_by_uuid host (disk (restoreExercise host run uuid w).2)).
Proof.
  intros Hkeyed.
  assert (Hstep : forall d', grown_by_records host (disk w) d' ->
            grown_by_records host (disk w) d' /\ keyed_by_uuid host d')
    by (intros d' Hd'; split; [exact Hd' | now apply (keyed_grown host (disk w))]).
  split; [| split]; intros x; apply Hstep.
  - apply (saveExercise_stays host run (disk w) x w), grown_refl.
  - apply (deleteExercise_stays host run (disk w) x w), grown_refl.
  - apply (restoreExercise_stays host run (disk w) x w), grown_refl.
Qed.

Lemma writes_keep_uuid_equal_to_key_witness :
  keyed_by_uuid device
    (disk (deleteExercise device calm (live "a1") (boot one_live)).2) /\
  keyed_by_uuid device
    (disk (saveExercise device calm draft (boot one_live)).2).
Proof.
  destruct (writes_keep_uuid_equal_to_key device calm (boot one_live)
              one_live_keyed) as (Hsave & Hdelete & _).
  split; [apply Hdelete | apply Hsave].
Defined.

(** C5 fails as stated: a payload with a circular reference does
    serialize.  json-stringify-safe prints the mark [[Circular ~]] in the
    place of the reference, the text is not empty, and the thought is
    written under its [uuid]: the store is not left as it was. *)
Lemma saveExercise_writes_circular_payload :
  get_prop looped_thought "self" = Some (VBack []) /\
  disk (boot ∅) !! live "a1" = None /\
  exists saved written,
    (saveExercise device calm looped_thought (boot ∅)).1 = Done saved /\
    get_prop saved "self" = Some (VBack []) /\
    stringify device saved = Some (Some written) /\
    written <> "" /\
    disk (saveExercise device calm looped_thought (boot ∅)).2 !! live "a1"
      = Some written.
Proof.
  split; [reflexivity |]. split; [reflexivity |].
  eexists _, _.
  split; [vm_compute; reflexivity |].
  split; [reflexivity |].
  split; [vm_compute; reflexivity |].
  split; [vm_compute; discriminate |].
  vm_compute. reflexivity.
Qed.

(** C5, amended.  When the record does not serialize ([stringify] throws,
    or its result is [undefined] or the empty string; a circular
    reference is no such case) no storage request is issued and the store
    is left as it was.  [saveThought] returns the record it was given.
    [saveExercise] returns the record it built in memory, not the input
    as it came: for a thought without identifier a copy that carries a
    new [uuid] (under which nothing was stored) and the two dates read
    from the clock; for a thought with an identifier the thought with
    [updatedAt] read from the clock. *)
Theorem save_skips_write_when_unserializable (host : Host) (run : Scenario) :
  (forall saveableThought w,
     (stringify host saveableThought = None \/
      exists o, stringify host saveableThought = Some o /\ falsy o = true) ->
     saveThought host run saveableThought w = (Done saveableThought, w)) /\
  (forall thought w,
     get_prop thought "uuid" = Some VUndefined ->
     let saved :=
       spread_over [("uuid", VStr (getThoughtKey (uuidv4 run (rnd w))));
                    ("createdAt", VDate (Some (wallclock run (clk w))));
                    ("updatedAt", VDate (Some (wallclock run (S (clk w)))))]
                   thought in
     (stringify host saved = None \/
      exists o, stringify host saved = Some o /\ falsy o = true) ->
     saveExercise host run thought w = (Done saved, tick (tick (drawn w))) /\
     disk (tick (tick (drawn w))) = disk w /\
     io (tick (tick (drawn w))) = io w) /\
  (forall thought w uuid saved,
     get_prop thought "uuid" = Some uuid -> uuid <> VUndefined ->
     set_prop thought "updatedAt" (VDate (Some (wallclock run (clk w))))
       = Some saved ->
     (stringify host saved = None \/
      exists o, stringify host saved = Some o /\ falsy o = true) ->
     saveExercise host run thought w = (Done saved, tick w) /\
     disk (tick w) = disk w /\ io (tick w) = io w).
Proof.
  assert (Hskip : forall rec w,
            (stringify host rec = None \/
             exists o, stringify host rec = Some o /\ falsy o = true) ->
            saveThought host run rec w = (Done rec, w)).
  { intros rec w Hbad. rewrite saveThought_eq.
    destruct Hbad as [->|(o & -> & ->)]; reflexivity. }
  split; [exact Hskip |]. split.
  - intros thought w Hnone saved Hbad.
    split; [| split; reflexivity].
    unfold saveExercise, bind, call. rewrite Hnone. simpl.
    now apply Hskip.
  - intros thought w uuid saved Huuid Hdefined Hset Hbad.
    split; [| split; reflexivity].
    unfold saveExercise, bind, call. rewrite Huuid. simpl.
    destruct uuid; try (now destruct Hdefined);
      rewrite Hset; simpl; now apply Hskip.
Qed.

Lemma save_skips_write_when_unserializable_witness :
  saveThought device calm VUndefined (boot one_live)
    = (Done VUndefined, boot one_live) /\
  (saveExercise throwing calm draft (boot one_live)).1
    = Done (spread_over
              [("uuid", VStr (live "9f1c2e7a-0"));
               ("createdAt", VDate (Some noon));
               ("updatedAt", VDate (Some (noon + 1)%Z))] draft) /\
  disk (saveExercise throwing calm draft (boot one_live)).2 = one_live /\
  saveExercise throwing calm (thought (live "a1") "2019-05-01T10:00:00.000Z")
    (boot one_live)
    = (Done (VObj (assoc_set "updatedAt" (VDate (Some noon))
                     (own_fields (thought (live "a1") "2019-05-01T10:00:00.000Z")))),
       tick (boot one_live)).
Proof.
  destruct (save_skips_write_when_unserializable device calm)
    as (Hthought & _ & _).
  destruct (save_skips_write_when_unserializable throwing calm)
    as (_ & Hnew & Hold).
  split; [apply Hthought; right; exists None; split; reflexivity |].
  destruct (Hnew draft (boot one_live) eq_refl) as (Hrun & Hdisk & _);
    [left; reflexivity |].
  split; [now rewrite Hrun |].
  split; [now rewrite Hrun |].
  destruct (Hold (thought (live "a1") "2019-05-01T10:00:00.000Z")
              (boot one_live) (VStr (live "a1"))
              (VObj (assoc_set "updatedAt" (VDate (Some noon))
                       (own_fields (thought (live "a1") "2019-05-01T10:00:00.000Z")))))
    as (Hrun' & _);
    [reflexivity | discriminate | reflexivity | left; reflexivity |].
  exact Hrun'.
Defined.

(** C6.  With storage at work:
    - a thought without identifier (an object with no [uuid], [createdAt]
      or [updatedAt] field, as the [Thought] type has it) comes back with
      [uuid] = [THOUGHTS_KEY_PREFIX] followed by a newly drawn identifier,
      and with [createdAt] and [updatedAt] read from the clock during the
      call; it is stored under that [uuid];
    - a thought that has an identifier comes back with [updatedAt] read
      from the clock and every other field, [uuid] and [createdAt]
      included, as it was; it is stored under its [uuid]. *)
Theorem saveExercise_stamps (host : Host) (run : Scenario) (w : world) :
  fate run (io w) = Pass ->
  (forall fields,
     assoc_get "uuid" fields = None ->
     assoc_get "createdAt" fields = None ->
     assoc_get "updatedAt" fields = None ->
     exists saved w',
       saveExercise host run (VObj fields) w = (Done saved, w') /\
       get_prop saved "uuid"
         = Some (VStr (THOUGHTS_KEY_PREFIX +:+ uuidv4 run (rnd w))) /\
       startsWith (THOUGHTS_KEY_PREFIX +:+ uuidv4 run (rnd w))
                  THOUGHTS_KEY_PREFIX = true /\
       get_prop saved "createdAt" = Some (VDate (Some (wallclock run (clk w)))) /\
       get_prop saved "updatedAt"
         = Some (VDate (Some (wallclock run (S (clk w))))) /\
       (forall text, stringify host saved = Some (Some text) -> text <> "" ->
          disk w' = <[THOUGHTS_KEY_PREFIX +:+ uuidv4 run (rnd w) := text]> (disk w))) /\
  (forall thought id,
     get_prop thought "uuid" = Some (VStr id) ->
     exists saved w',
       saveExercise host run thought w = (Done saved, w') /\
       get_prop saved "updatedAt" = Some (VDate (Some (wallclock run (clk w)))) /\
       (forall k, k <> "updatedAt" -> get_prop saved k = get_prop thought k) /\
       get_prop saved "uuid" = Some (VStr id) /\
       get_prop saved "createdAt" = get_prop thought "createdAt" /\
       (forall text, stringify host saved = Some (Some text) -> text <> "" ->
          disk w' = <[id := text]> (disk w))).
Proof.
  intros Hpass. split.
  - intros fields Hu Hc Hup.
    unfold saveExercise, bind, call. simpl. rewrite Hu. simpl.
    set (saved := spread_over _ (VObj fields)).
    assert (Hget : forall k, assoc_get k fields = None ->
              get_prop saved k
              = Some (default VUndefined
                        (assoc_get k
                           [("uuid", VStr (getThoughtKey (uuidv4 run (rnd w))));
                            ("createdAt", VDate (Some (wallclock run (clk w))));
                            ("updatedAt", VDate (Some (wallclock run (S (clk w)))))])))
      by (intros k Hk; unfold saved, spread_over; simpl;
          now rewrite assoc_get_spread).
    destruct (saveThought_done host run saved (tick (tick (drawn w))) Hpass)
      as (w' & Hrun & Hdisk).
    exists saved, w'. split; [exact Hrun |].
    split; [now rewrite Hget |].
    split; [apply startsWith_app |].
    split; [now rewrite Hget |].
    split; [now rewrite Hget |].
    intros text Hs Hne. apply Hdisk; [assumption.. |]. now rewrite Hget.
  - intros thought id Hid.
    unfold saveExercise, bind, call. rewrite Hid. simpl.
    destruct (set_prop_defined thought (VDate (Some (wallclock run (clk w))))
                "updatedAt" id Hid) as [saved Hsaved].
    rewrite Hsaved. simpl.
    destruct (saveThought_done host run saved (tick w) Hpass)
      as (w' & Hrun & Hdisk).
    assert (Huuid : get_prop saved "uuid" = Some (VStr id))
      by (rewrite <- Hid; eapply get_set_prop_ne; [exact Hsaved | done]).
    exists saved, w'. split; [exact Hrun |].
    split; [eapply get_set_prop_eq; exact Hsaved |].
    split; [intros k Hk; eapply get_set_prop_ne; [exact Hsaved | exact Hk] |].
    split; [exact Huuid |].
    split; [eapply get_set_prop_ne; [exact Hsaved | done] |].
    intros text Hs Hne. now apply Hdisk.
Qed.

Lemma saveExercise_stamps_witness :
  (exists saved w',
     saveExercise device calm draft (boot ∅) = (Done saved, w') /\
     get_prop saved "uuid" = Some (VStr (live "9f1c2e7a-0"))) /\
  (exists saved w',
     saveExercise device calm (thought (archived "a1") "2019-05-14T09:00:00.000Z")
       (boot ∅) = (Done saved, w') /\
     get_prop saved "uuid" = Some (VStr (archived "a1")) /\
     get_prop saved "updatedAt" = Some (VDate (Some noon))).
Proof.
  destruct (saveExercise_stamps device calm (boot ∅) eq_refl) as [Hnew Hold].
  split.
  - destruct (Hnew (own_fields draft) eq_refl eq_refl eq_refl)
      as (saved & w' & Hrun & Hu & _).
    exists saved, w'. split; [exact Hrun | exact Hu].
  - destruct (Hold (thought (archived "a1") "2019-05-14T09:00:00.000Z")
                (archived "a1") eq_refl)
      as (saved & w' & Hrun & Hup & _ & Hu & _).
    exists saved, w'. split; [exact Hrun |]. split; [exact Hu | exact Hup].
Defined.

End SavingClaims.

(* ===================================================================== *)
(** * Archiving, restoring, deleting                                      *)
(* ===================================================================== *)

Section Moving.

Context (host : Host) (run : Scenario).

(** The record [deleteExercise] and [restoreExercise] write: the parsed
    fields with [updatedAt] and [uuid] set anew. *)
Lemma move_eq (w : world) (from to_ text : string) (fields : list (string * value))
    (text' : string) :
  fate run (io w) = Pass -> fate run (S (io w)) = Pass ->
  fate run (S (S (io w))) = Pass ->
  disk w !! from = Some text ->
  JSON_parse host text = Some (VObj fields) ->
  stringify host
    (VObj (assoc_set "uuid" (VStr to_)
             (assoc_set "updatedAt" (VDate (Some (wallclock run (clk w)))) fields)))
    = Some (Some text') ->
  text' <> "" ->
  (startsWith from THOUGHTS_KEY_PREFIX = true ->
   replace from THOUGHTS_KEY_PREFIX DELETED_KEY_PREFIX = to_ ->
   deleteExercise host run from w
   = (Done tt, set_disk (delete from (<[to_ := text']> (disk w)))
                 (asked (asked (asked (tick w)))))) /\
  (replace from DELETED_KEY_PREFIX THOUGHTS_KEY_PREFIX = to_ ->
   restoreExercise host run from w
   = (Done tt, set_disk (delete from (<[to_ := text']> (disk w)))
                 (asked (asked (asked (tick w)))))).
Proof.
  intros H0 H1 H2 Hlook Hparse Hs Hne.
  assert (Hsave :
    saveThought host run
      (VObj (assoc_set "uuid" (VStr to_)
               (assoc_set "updatedAt" (VDate (Some (wallclock run (clk w)))) fields)))
      (tick (asked w))
    = (Done (VObj (assoc_set "uuid" (VStr to_)
               (assoc_set "updatedAt" (VDate (Some (wallclock run (clk w)))) fields))),
       set_disk (<[to_ := text']> (disk w)) (asked (tick (asked w))))).
  { rewrite saveThought_eq, Hs. simpl.
    apply String.eqb_neq in Hne. rewrite Hne, assoc_get_set_eq. simpl.
    now rewrite H1. }
  split.
  - intros Hlive Hto.
    unfold deleteExercise, try_catch, bind, getItem, request at 1.
    rewrite H0. simpl. rewrite Hlook. simpl. rewrite Hparse. simpl.
    rewrite Hlive, Hto.
    change (set_disk (disk w) (asked w)) with (asked w).
    unfold ret at 1. rewrite Hsave.
    unfold removeItem, request. simpl. now rewrite H2.
  - intros Hto.
    unfold restoreExercise, try_catch, bind, getItem, request at 1.
    rewrite H0. simpl. rewrite Hlook. simpl. rewrite Hparse. simpl.
    rewrite Hto.
    change (set_disk (disk w) (asked w)) with (asked w).
    unfold ret at 1. rewrite Hsave.
    unfold removeItem, request. simpl. now rewrite H2.
Qed.


(** Archiving loses a thought only through a failed write: after
    [deleteExercise] on a live key that holds a value, the value is still
    under the live key or the record is under the archived key, unless the
    write request was rejected or the record did not serialize.  A process
    killed at any point ([Crash]) loses nothing. *)
Lemma deleteExercise_loss_needs_failed_write (w : world) (uuid text : string) :
  startsWith uuid THOUGHTS_KEY_PREFIX = true ->
  disk w !! uuid = Some text ->
  is_Some (disk (deleteExercise host run uuid w).2 !! uuid) \/
  is_Some (disk (deleteExercise host run uuid w).2
             !! replace uuid THOUGHTS_KEY_PREFIX DELETED_KEY_PREFIX) \/
  fate run (S (io w)) = Reject \/
  exists saved,
    get_prop saved "uuid"
      = Some (VStr (replace uuid THOUGHTS_KEY_PREFIX DELETED_KEY_PREFIX)) /\
    (stringify host saved = None \/
     exists o, stringify host saved = Some o /\ falsy o = true).
Proof.
  intros Hlive Hlook.
  set (to_ := replace uuid THOUGHTS_KEY_PREFIX DELETED_KEY_PREFIX).
  assert (Hne : to_ <> uuid).
  { unfold to_. rewrite (prefix_split _ _ Hlive), replace_prefix.
    intros Heq. symmetry in Heq. revert Heq. apply live_ne_archived. }
  remember (deleteExercise host run uuid w) as res eqn:Hres.
  assert (Hkept : disk res.2 = disk w -> is_Some (disk res.2 !! uuid))
    by (intros ->; rewrite Hlook; eauto).
  unfold deleteExercise, try_catch, bind, getItem, request at 1 in Hres.
  destruct (fate run (io w)); simpl in Hres;
    try (left; apply Hkept; subst res; reflexivity; fail).
  rewrite Hlook in Hres. simpl in Hres.
  destruct (JSON_parse host text) as [t|]; simpl in Hres;
    [| left; apply Hkept; subst res; reflexivity].
  destruct (set_prop t "updatedAt" _) as [t1|] eqn:H1; simpl in Hres;
    [| left; apply Hkept; subst res; reflexivity].
  rewrite Hlive in Hres. fold to_ in Hres.
  destruct (set_prop t1 "uuid" (VStr to_)) as [t2|] eqn:H2; simpl in Hres;
    [| left; apply Hkept; subst res; reflexivity].
  apply get_set_prop_eq in H2.
  unfold ret at 1 in Hres. rewrite saveThought_eq in Hres.
  destruct (stringify host t2) as [o|] eqn:Hs;
    [| right; right; right; exists t2; eauto].
  destruct (falsy o) eqn:Hfalsy;
    [right; right; right; exists t2; eauto |].
  rewrite H2 in Hres. simpl in Hres.
  destruct (fate run (S (io w))); simpl in Hres;
    [| right; right; now left | left; apply Hkept; subst res; reflexivity].
  right. left. unfold removeItem, request in Hres. simpl in Hres.
  destruct (fate run (S (S (io w)))); subst res; simpl.
  - rewrite lookup_delete_ne by (symmetry; exact Hne).
    rewrite lookup_insert_eq. eauto.
  - rewrite lookup_insert_eq. eauto.
  - rewrite lookup_insert_eq. eauto.
Qed.

End Moving.

Section MovingClaims.

Import Device Examples.

(** C2, evaluated.  The thought [a1] is stored under its live key.  The
    device rejects the second storage request of [deleteExercise], the
    write under the archived key.  [saveThought] catches the rejection and
    returns normally, so the chained [removeItem] runs: afterwards the
    thought is under neither key. *)
Theorem deleteExercise_loses_thought_when_write_rejected :
  one_live !! live "a1"
    = Some (text (thought (live "a1") "2019-05-01T10:00:00.000Z")) /\
  replace (live "a1") THOUGHTS_KEY_PREFIX DELETED_KEY_PREFIX = archived "a1" /\
  fate full_device 0 = Pass /\ fate full_device 1 = Reject /\
  fate full_device 2 = Pass /\
  (deleteExercise device full_device (live "a1") (boot one_live)).1 = Done tt /\
  disk (deleteExercise device full_device (live "a1") (boot one_live)).2
    !! live "a1" = None /\
  disk (deleteExercise device full_device (live "a1") (boot one_live)).2
    !! archived "a1" = None.
Proof. vm_compute. repeat split. Qed.

(** C7.  Take a thought stored under [THOUGHTS_KEY_PREFIX + id] whose text
    parses to a record, with storage at work and the JSON codec turning
    the archived and the restored record into non-empty text (the archived
    text parsing back to a record).  Archiving it moves it to
    [DELETED_KEY_PREFIX + id]; restoring that identifier moves it back
    under [THOUGHTS_KEY_PREFIX + id], the same suffix, with [uuid] equal to
    that key, and nothing is left under the archived key. *)
Theorem restore_undoes_archive (host : Host) (run : Scenario) (w : world)
    (id text text1 text2 : string) (fields fields1 : list (string * value)) :
  (forall n, (n < 6)%nat -> fate run (n + io w) = Pass) ->
  disk w !! (THOUGHTS_KEY_PREFIX +:+ id) = Some text ->
  JSON_parse host text = Some (VObj fields) ->
  stringify host
    (VObj (assoc_set "uuid" (VStr (DELETED_KEY_PREFIX +:+ id))
             (assoc_set "updatedAt" (VDate (Some (wallclock run (clk w)))) fields)))
    = Some (Some text1) ->
  text1 <> "" ->
  JSON_parse host text1 = Some (VObj fields1) ->
  stringify host
    (VObj (assoc_set "uuid" (VStr (THOUGHTS_KEY_PREFIX +:+ id))
             (assoc_set "updatedAt" (VDate (Some (wallclock run (S (clk w)))))
                fields1)))
    = Some (Some text2) ->
  text2 <> "" ->
  let archived_key :=
    replace (THOUGHTS_KEY_PREFIX +:+ id) THOUGHTS_KEY_PREFIX DELETED_KEY_PREFIX in
  let w1 := (deleteExercise host run (THOUGHTS_KEY_PREFIX +:+ id) w).2 in
  let w2 := (restoreExercise host run archived_key w1).2 in
  archived_key = DELETED_KEY_PREFIX +:+ id /\
  startsWith archived_key DELETED_KEY_PREFIX = true /\
  disk w1 !! (THOUGHTS_KEY_PREFIX +:+ id) = None /\
  disk w1 !! archived_key = Some text1 /\
  disk w2 !! archived_key = None /\
  disk w2 !! (THOUGHTS_KEY_PREFIX +:+ id) = Some text2 /\
  (exists restored,
     stringify host restored = Some (Some text2) /\
     get_prop restored "uuid" = Some (VStr (THOUGHTS_KEY_PREFIX +:+ id))) /\
  disk w2 = <[THOUGHTS_KEY_PREFIX +:+ id := text2]>
              (delete (DELETED_KEY_PREFIX +:+ id) (disk w)).
Proof.
  intros Hpass Hlook Hparse Hs1 Hne1 Hparse1 Hs2 Hne2 archived_key w1 w2.
  assert (Hkey : archived_key = DELETED_KEY_PREFIX +:+ id)
    by apply replace_prefix.
  assert (Hne : THOUGHTS_KEY_PREFIX +:+ id <> DELETED_KEY_PREFIX +:+ id)
    by apply live_ne_archived.
  destruct (move_eq host run w (THOUGHTS_KEY_PREFIX +:+ id)
              (DELETED_KEY_PREFIX +:+ id) text fields text1) as [Hdel _];
    try assumption;
    try (apply (Hpass 0%nat); lia); try (apply (Hpass 1%nat); lia);
    try (apply (Hpass 2%nat); lia).
  specialize (Hdel (startsWith_app _ _) (replace_prefix _ _ _)).
  assert (Hw1 : disk w1 = delete (THOUGHTS_KEY_PREFIX +:+ id)
                            (<[DELETED_KEY_PREFIX +:+ id := text1]> (disk w)))
    by (unfold w1; now rewrite Hdel).
  assert (Hio1 : io w1 = (3 + io w)%nat) by (unfold w1; now rewrite Hdel).
  assert (Hclk1 : clk w1 = S (clk w)) by (unfold w1; now rewrite Hdel).
  destruct (move_eq host run w1 (DELETED_KEY_PREFIX +:+ id)
              (THOUGHTS_KEY_PREFIX +:+ id) text1 fields1 text2) as [_ Hres];
    try assumption;
    try (rewrite Hio1; apply (Hpass 3%nat); lia);
    try (rewrite Hio1; apply (Hpass 4%nat); lia);
    try (rewrite Hio1; apply (Hpass 5%nat); lia).
  { rewrite Hw1, lookup_delete_ne by exact Hne. apply lookup_insert_eq. }
  { now rewrite Hclk1. }
  specialize (Hres (replace_prefix _ _ _)).
  assert (Hw2 : disk w2 = delete (DELETED_KEY_PREFIX +:+ id)
                            (<[THOUGHTS_KEY_PREFIX +:+ id := text2]> (disk w1)))
    by (unfold w2; rewrite Hkey; now rewrite Hres).
  rewrite Hkey.
  split; [reflexivity |].
  split; [apply startsWith_app |].
  split; [rewrite Hw1; apply lookup_delete_eq |].
  split; [rewrite Hw1, lookup_delete_ne by exact Hne; apply lookup_insert_eq |].
  split; [rewrite Hw2; apply lookup_delete_eq |].
  split; [rewrite Hw2, lookup_delete_ne by (symmetry; exact Hne);
          apply lookup_insert_eq |].
  split.
  - eexists. split; [exact Hs2 |]. simpl. now rewrite assoc_get_set_eq.
  - rewrite Hw2, Hw1. apply map_eq. intros k.
    destruct (decide (k = DELETED_KEY_PREFIX +:+ id)) as [->|Hk1].
    + rewrite lookup_delete_eq, lookup_insert_ne by exact Hne.
      now rewrite lookup_delete_eq.
    + rewrite lookup_delete_ne by (symmetry; exact Hk1).
      destruct (decide (k = THOUGHTS_KEY_PREFIX +:+ id)) as [->|Hk2].
      * now rewrite !lookup_insert_eq.
      * rewrite !lookup_insert_ne by (symmetry; exact Hk2).
        rewrite !lookup_delete_ne by (symmetry; assumption).
        now rewrite lookup_insert_ne by (symmetry; exact Hk1).
Qed.

Lemma restore_undoes_archive_witness :
  exists text2,
    disk (restoreExercise device calm (archived "a1")
            (deleteExercise device calm (live "a1") (boot one_live)).2).2
    !! live "a1" = Some text2 /\
    disk (restoreExercise device calm (archived "a1")
            (deleteExercise device calm (live "a1") (boot one_live)).2).2
    !! archived "a1" = None.
Proof.
  edestruct (restore_undoes_archive device calm (boot one_live) "a1")
    as (_ & _ & _ & _ & Hgone & Hback & _);
    [ intros n Hn; reflexivity
    | vm_compute; reflexivity
    | vm_compute; reflexivity
    | vm_compute; reflexivity
    | vm_compute; discriminate
    | vm_compute; reflexivity
    | vm_compute; reflexivity
    | vm_compute; discriminate
    | ].
  eexists. split; [exact Hback | exact Hgone].
Defined.

(** C8 fails as stated: an archived key whose value is not JSON is still
    there after [deleteExercise]; the value is read back and parsed before
    anything is removed. *)
Lemma deleteExercise_keeps_unparsable_archive :
  corrupt_archive !! archived "c3" = Some "not json" /\
  startsWith (archived "c3") DELETED_KEY_PREFIX = true /\
  (deleteExercise device calm (archived "c3") (boot corrupt_archive)).1 = Done tt /\
  disk (deleteExercise device calm (archived "c3") (boot corrupt_archive)).2
    !! archived "c3" = Some "not json".
Proof. vm_compute. repeat split. Qed.

(** C8, amended.  For an identifier in the archived namespace,
    [deleteExercise] first reads the stored value back and parses it.
    With storage at work: when the value parses to a record, the key is
    removed and nothing else in storage changes (no rekey, no write), and
    no thought returned by the next load was read from that key; when the
    value does not parse, nothing is removed. *)
Theorem deleteExercise_permanent (host : Host) (run : Scenario) (w : world)
    (id text : string) :
  fate run (io w) = Pass -> fate run (S (io w)) = Pass ->
  disk w !! (DELETED_KEY_PREFIX +:+ id) = Some text ->
  let w' := (deleteExercise host run (DELETED_KEY_PREFIX +:+ id) w).2 in
  (JSON_parse host text = None -> disk w' = disk w) /\
  (forall fields, JSON_parse host text = Some (VObj fields) ->
     disk w' = delete (DELETED_KEY_PREFIX +:+ id) (disk w) /\
     disk w' !! (DELETED_KEY_PREFIX +:+ id) = None /\
     forall r, (getExercises host run w').1 = Done r ->
       forall v, v ∈ savedThoughts r \/ v ∈ deletedThoughts r ->
         exists key text', key <> DELETED_KEY_PREFIX +:+ id /\
           disk w !! key = Some text' /\ JSON_parse host text' = Some v).
Proof.
  intros H0 H1 Hlook w'.
  assert (Hrun : forall o, JSON_parse host text = o ->
    deleteExercise host run (DELETED_KEY_PREFIX +:+ id) w =
    match o with
    | Some (VObj _) =>
        (Done tt, set_disk (delete (DELETED_KEY_PREFIX +:+ id) (disk w))
                    (asked (tick (asked w))))
    | Some (VArr _ _) =>
        (Done tt, set_disk (delete (DELETED_KEY_PREFIX +:+ id) (disk w))
                    (asked (tick (asked w))))
    | Some _ => (Done tt, tick (asked w))
    | None => (Done tt, asked w)
    end).
  { intros o Ho.
    unfold deleteExercise, try_catch, bind, getItem, request at 1.
    rewrite H0. simpl. rewrite Hlook. simpl. rewrite Ho.
    destruct o as [[]|]; simpl; try reflexivity;
      unfold removeItem, request; simpl; now rewrite H1. }
  split.
  - intros Hbad. unfold w'. now rewrite (Hrun None Hbad).
  - intros fields Hgood.
    assert (Hdisk : disk w' = delete (DELETED_KEY_PREFIX +:+ id) (disk w))
      by (unfold w'; now rewrite (Hrun _ Hgood)).
    split; [exact Hdisk |].
    split; [rewrite Hdisk; apply lookup_delete_eq |].
    intros r Hr v Hv.
    destruct (getExercises_sound host run w' r Hr) as [Hs Hd].
    destruct Hv as [Hv|Hv];
      [destruct (Hs v Hv) as (key & txt & Hk & _ & _ & Hp)
      |destruct (Hd v Hv) as (key & txt & Hk & _ & _ & _ & Hp)];
      rewrite Hdisk in Hk; apply lookup_delete_Some in Hk as [Hkne Hk];
      exists key, txt; auto.
Qed.

Lemma deleteExercise_permanent_witness :
  disk (deleteExercise device calm (archived "a1") (boot stale_archive)).2 = ∅.
Proof.
  destruct (deleteExercise_permanent device calm (boot stale_archive) "a1"
              (text stale_thought)) as [_ Hgood];
    [vm_compute; reflexivity.. |].
  destruct (Hgood (own_fields stale_thought)) as (Hdisk & _);
    [vm_compute; reflexivity |].
  etransitivity; [exact Hdisk | vm_compute; reflexivity].
Defined.

(** C4 fails as stated: with the thought [a1] under both its live and its
    archived key, a load returns both copies, the older live one
    included. *)
Lemma getExercises_shows_thought_twice :
  exists va vd r,
    (getExercises device calm (boot mid_move)).1 = Done r /\
    va ∈ savedThoughts r /\ vd ∈ deletedThoughts r /\
    get_prop va "uuid" = Some (VStr (THOUGHTS_KEY_PREFIX +:+ "a1")) /\
    get_prop vd "uuid" = Some (VStr (DELETED_KEY_PREFIX +:+ "a1")) /\
    get_prop va "updatedAt" = Some (VStr "2019-05-01T10:00:00.000Z") /\
    get_prop vd "updatedAt" = Some (VStr "2019-05-14T09:00:00.000Z").
Proof.
  exists (thought (live "a1") "2019-05-01T10:00:00.000Z"),
         (thought (archived "a1") "2019-05-14T09:00:00.000Z").
  eexists. split; [vm_compute; reflexivity |].
  repeat split; apply list_elem_of_singleton; reflexivity.
Qed.

(** C4, amended.  [getExercises] does not de-duplicate.  With storage at
    work and a store whose thought values all parse, a thought stored
    under both its live and its archived key is returned twice: the live
    copy in [savedThoughts] and the archived copy in [deletedThoughts],
    whatever their [updatedAt]. *)
Theorem getExercises_returns_both_copies (host : Host) (run : Scenario)
    (w : world) (id live_text archived_text : string) (va vd : value) :
  fate run (io w) = Pass -> fate run (S (io w)) = Pass ->
  fate run (S (S (io w))) = Pass ->
  loadable host (disk w) ->
  disk w !! (THOUGHTS_KEY_PREFIX +:+ id) = Some live_text ->
  live_text <> "" -> JSON_parse host live_text = Some va ->
  disk w !! (DELETED_KEY_PREFIX +:+ id) = Some archived_text ->
  archived_text <> "" -> JSON_parse host archived_text = Some vd ->
  exists r, (getExercises host run w).1 = Done r /\
            va ∈ savedThoughts r /\ vd ∈ deletedThoughts r.
Proof.
  intros H0 H1 H2 Hload Hla Hna Hpa Hld Hnd Hpd.
  destruct (getExercises_complete host run w H0 H1) as (r & Hr & Hall);
    [congruence | assumption |].
  exists r. split; [exact Hr |]. split.
  - specialize (Hall _ _ va Hla (live_is_thought_key id) Hna Hpa).
    now rewrite startsWith_app in Hall.
  - specialize (Hall _ _ vd Hld (archived_is_thought_key id) Hnd Hpd).
    now rewrite archived_not_live in Hall.
Qed.

Lemma getExercises_returns_both_copies_witness :
  exists r, (getExercises device calm (boot mid_move)).1 = Done r /\
    thought (live "a1") "2019-05-01T10:00:00.000Z" ∈ savedThoughts r /\
    thought (archived "a1") "2019-05-14T09:00:00.000Z" ∈ deletedThoughts r.
Proof.
  apply (getExercises_returns_both_copies device calm (boot mid_move) "a1"
           (text (thought (live "a1") "2019-05-01T10:00:00.000Z"))
           (text (thought (archived "a1") "2019-05-14T09:00:00.000Z")));
    try apply mid_move_loadable;
    try (vm_compute; reflexivity); vm_compute; discriminate.
Defined.

End MovingClaims.

(* ===================================================================== *)
(** * Further properties of the store                                     *)
(* ===================================================================== *)

Section Errors.

Context (host : Host) (run : Scenario).

Lemma try_catch_ret_no_throw {A} (m : M A) (a : A) (w : world) :
  (try_catch m (ret a) w).1 <> Threw.
Proof.
  unfold try_catch. destruct (m w) as [[x| |] w']; discriminate.
Qed.

Lemma saveExercise_as_saveThought (thought saved : value) (w w' : world) :
  saveExercise host run thought w = (Done saved, w') ->
  exists w1, saveThought host run saved w1 = (Done saved, w') /\
             disk w1 = disk w /\ io w1 = io w.
Proof.
  unfold saveExercise, bind, call.
  destruct (get_prop thought "uuid") as [uuid|]; [| discriminate].
  unfold ret at 1.
  assert (Hend : forall rec w1, disk w1 = disk w -> io w1 = io w ->
            saveThought host run rec w1 = (Done saved, w') ->
            exists w1, saveThought host run saved w1 = (Done saved, w') /\
                       disk w1 = disk w /\ io w1 = io w).
  { intros rec w1 Hd Hio Hrun.
    assert (saved = rec) as ->
      by (apply (saveThought_returns host run rec saved w1); now rewrite Hrun).
    eauto. }
  destruct uuid; simpl;
    try (destruct (set_prop thought "updatedAt" _) as [rec|];
         [now apply Hend | discriminate]).
  now apply Hend.
Qed.

(** X1.  The operations written as [try { ... } catch] never raise,
    whatever storage does: [saveThought], [deleteExercise],
    [restoreExercise], [exists], [getIsExistingUser] and
    [setIsExistingUser] end normally (or the process was killed). *)
Theorem guarded_operations_never_raise (w : world) :
  (forall saveableThought, (saveThought host run saveableThought w).1 <> Threw) /\
  (forall uuid, (deleteExercise host run uuid w).1 <> Threw) /\
  (forall uuid, (restoreExercise host run uuid w).1 <> Threw) /\
  (forall key, (exists_ run key w).1 <> Threw) /\
  (getIsExistingUser run w).1 <> Threw /\
  (setIsExistingUser run w).1 <> Threw.
Proof.
  repeat split; intros; apply try_catch_ret_no_throw.
Qed.

(** X2.  [saveExercise] has no [try]: it raises exactly when the thought
    it is given is [null] or [undefined] (reading [thought.uuid] fails);
    on every other value it does not raise, whatever storage does. *)
Theorem saveExercise_raises_exactly_on_null (thought : value) (w : world) :
  (saveExercise host run thought w).1 = Threw <->
  thought = VNull \/ thought = VUndefined.
Proof.
  assert (Hsave : forall rec w1, (saveThought host run rec w1).1 <> Threw)
    by (intros; apply try_catch_ret_no_throw).
  split.
  - unfold saveExercise, bind, call.
    destruct thought; simpl; auto; intros Hthrow; exfalso;
      try (now apply (Hsave _ _ Hthrow)).
    + destruct (default VUndefined (assoc_get "uuid" named)); simpl in Hthrow;
        now apply (Hsave _ _ Hthrow).
    + destruct (default VUndefined (assoc_get "uuid" fields)); simpl in Hthrow;
        now apply (Hsave _ _ Hthrow).
  - intros [-> | ->]; reflexivity.
Qed.

End Errors.

Section ExistingUser.

(** X3.  The existing-user flag: a rejected read answers [false]; with
    storage at work a store without the flag answers [false], and once
    [setIsExistingUser] has run, [getIsExistingUser] answers [true]. *)
Theorem existing_user_flag (run : Scenario) (w : world) :
  (fate run (io w) = Reject -> (getIsExistingUser run w).1 = Done false) /\
  (fate run (io w) = Pass -> disk w !! EXISTING_USER_KEY = None ->
   (getIsExistingUser run w).1 = Done false) /\
  (fate run (io w) = Pass -> fate run (S (io w)) = Pass ->
   (getIsExistingUser run (setIsExistingUser run w).2).1 = Done true).
Proof.
  unfold getIsExistingUser, setIsExistingUser, try_catch, bind, getItem, request.
  repeat split.
  - intros ->. reflexivity.
  - intros -> Hnone. simpl. now rewrite Hnone.
  - intros -> H1. simpl. rewrite H1. simpl. now rewrite lookup_insert_eq.
Qed.

Lemma existing_user_flag_witness :
  (getIsExistingUser Examples.calm (Examples.boot Examples.one_live)).1
    = Done false /\
  (getIsExistingUser Examples.calm
     (setIsExistingUser Examples.calm (Examples.boot Examples.one_live)).2).1
    = Done true /\
  (getIsExistingUser Examples.offline (Examples.boot Examples.one_live)).1
    = Done false.
Proof.
  destruct (existing_user_flag Examples.calm (Examples.boot Examples.one_live))
    as (_ & Hnone & Hset).
  destruct (existing_user_flag Examples.offline (Examples.boot Examples.one_live))
    as (Hrejected & _ & _).
  split; [| split].
  - apply Hnone; vm_compute; reflexivity.
  - apply Hset; reflexivity.
  - apply Hrejected. reflexivity.
Defined.

End ExistingUser.

Section AfterSaving.

(** X4.  After [saveExercise] has returned a record that serializes to a
    non-empty text, with storage at work, the text is stored under the
    record's [uuid] and [exists] answers [true] for it. *)
Theorem saved_thought_exists (host : Host) (run : Scenario) (thought saved : value) (w w' : world)
    (key text : string) :
  saveExercise host run thought w = (Done saved, w') ->
  get_prop saved "uuid" = Some (VStr key) ->
  stringify host saved = Some (Some text) -> text <> "" ->
  fate run (io w) = Pass -> fate run (S (io w)) = Pass ->
  disk w' !! key = Some text /\ (exists_ run key w').1 = Done true.
Proof.
  intros Hrun Hkey Hs Hne H0 H1.
  destruct (saveExercise_as_saveThought host run thought saved w w' Hrun)
    as (w1 & Hsave & Hd & Hio).
  rewrite saveThought_eq, Hs in Hsave. simpl in Hsave.
  apply String.eqb_neq in Hne. rewrite Hne, Hkey, Hio, H0 in Hsave.
  injection Hsave as <-.
  split; [simpl; apply lookup_insert_eq |].
  unfold exists_, try_catch, bind, getItem, request. simpl.
  rewrite Hio, H1. simpl. rewrite lookup_insert_eq. simpl. now rewrite Hne.
Qed.

Lemma saved_thought_exists_witness :
  (exists_ Examples.calm (Examples.live "9f1c2e7a-0")
     (saveExercise Device.device Examples.calm Examples.draft
        (Examples.boot ∅)).2).1 = Done true.
Proof.
  eapply (saved_thought_exists Device.device Examples.calm Examples.draft _
            (Examples.boot ∅)).
  - vm_compute. reflexivity.
  - vm_compute. reflexivity.
  - vm_compute. reflexivity.
  - vm_compute. discriminate.
  - reflexivity.
  - reflexivity.
Defined.

(** X5.  [saveExercise] touches one key only: every key other than the
    [uuid] of the record it returns holds afterwards what it held before,
    whatever storage does. *)
Theorem saveExercise_touches_only_its_key (host : Host) (run : Scenario) (thought saved : value)
    (w : world) (key : string) :
  (saveExercise host run thought w).1 = Done saved ->
  get_prop saved "uuid" <> Some (VStr key) ->
  disk (saveExercise host run thought w).2 !! key = disk w !! key.
Proof.
  intros Hrun Hkey.
  destruct (saveExercise host run thought w) as [o w'] eqn:E.
  simpl in Hrun. subst o.
  destruct (saveExercise_as_saveThought host run thought saved w w' E)
    as (w1 & Hsave & Hd & Hio).
  rewrite saveThought_eq in Hsave. simpl.
  destruct (stringify host saved) as [o|];
    [| injection Hsave as <-; now rewrite Hd].
  destruct (falsy o); [injection Hsave as <-; now rewrite Hd |].
  destruct (get_prop saved "uuid") as [[]|];
    try (injection Hsave as <-; now rewrite Hd).
  destruct (fate run (io w1)); try discriminate Hsave;
    injection Hsave as <-; simpl; [| now rewrite Hd].
  rewrite lookup_insert_ne by congruence. now rewrite Hd.
Qed.

Lemma saveExercise_touches_only_its_key_witness :
  disk (saveExercise Device.device Examples.calm Examples.draft
          (Examples.boot Examples.one_live)).2 !! Examples.live "a1"
  = Examples.one_live !! Examples.live "a1".
Proof.
  eapply (saveExercise_touches_only_its_key Device.device Examples.calm
            Examples.draft).
  - vm_compute. reflexivity.
  - vm_compute. discriminate.
Defined.

(** X6.  The caller cannot tell a rejected write from a successful one:
    when the write request of [saveExercise] is rejected, the store is
    left as it was, and [saveExercise] returns the very record it returns
    in a run that differs only in that the write succeeds. *)
Theorem saveExercise_hides_rejected_write (host : Host) (run run' : Scenario) (thought : value)
    (w : world) :
  wallclock run' = wallclock run -> uuidv4 run' = uuidv4 run ->
  fate run (io w) = Pass -> fate run' (io w) = Reject ->
  (saveExercise host run' thought w).1 = (saveExercise host run thought w).1 /\
  disk (saveExercise host run' thought w).2 = disk w.
Proof.
  intros Hclock Huuid Hpass Hreject.
  assert (Hsave : forall rec w1, io w1 = io w -> disk w1 = disk w ->
            (saveThought host run' rec w1).1 = (saveThought host run rec w1).1 /\
            disk (saveThought host run' rec w1).2 = disk w).
  { intros rec w1 Hio Hd. rewrite !saveThought_eq, Hio, Hpass, Hreject.
    destruct (stringify host rec) as [o|]; [| now split].
    destruct (falsy o); [now split |].
    destruct (get_prop rec "uuid") as [[]|]; now split. }
  unfold saveExercise, bind, call, fresh_uuid, new_Date.
  rewrite Hclock, Huuid.
  destruct (get_prop thought "uuid") as [uuid|]; [| now split].
  unfold ret at 1 3 4.
  destruct uuid; simpl;
    try (destruct (set_prop thought "updatedAt" _) as [rec|];
         [now apply Hsave | now split]).
  now apply Hsave.
Qed.

Lemma saveExercise_hides_rejected_write_witness :
  (saveExercise Device.device Examples.offline Examples.draft
     (Examples.boot Examples.one_live)).1
  = (saveExercise Device.device Examples.calm Examples.draft
       (Examples.boot Examples.one_live)).1 /\
  disk (saveExercise Device.device Examples.offline Examples.draft
          (Examples.boot Examples.one_live)).2 = Examples.one_live.
Proof.
  apply (saveExercise_hides_rejected_write Device.device Examples.calm
           Examples.offline Examples.draft (Examples.boot Examples.one_live));
    reflexivity.
Defined.

(** X7.  Save, then load.  After [saveExercise] has stored a record under
    a live key, a load with storage at work, on a store whose other
    thought values parse, returns the parsed text of that record among
    the [savedThoughts]. *)
Theorem saved_thought_is_loaded (host : Host) (run : Scenario) (thought saved v : value) (w w' : world)
    (id text : string) :
  saveExercise host run thought w = (Done saved, w') ->
  get_prop saved "uuid" = Some (VStr (THOUGHTS_KEY_PREFIX +:+ id)) ->
  stringify host saved = Some (Some text) -> text <> "" ->
  JSON_parse host text = Some v ->
  loadable host (disk w) ->
  (forall n, (n < 4)%nat -> fate run (n + io w) = Pass) ->
  exists r, (getExercises host run w').1 = Done r /\ v ∈ savedThoughts r.
Proof.
  intros Hrun Hkey Hs Hne Hparse Hload Hpass.
  assert (H0 : fate run (io w) = Pass) by (apply (Hpass 0%nat); lia).
  assert (H1 : fate run (S (io w)) = Pass) by (apply (Hpass 1%nat); lia).
  assert (H2 : fate run (S (S (io w))) = Pass) by (apply (Hpass 2%nat); lia).
  assert (H3 : fate run (S (S (S (io w)))) = Pass) by (apply (Hpass 3%nat); lia).
  destruct (saveExercise_as_saveThought host run thought saved w w' Hrun)
    as (w1 & Hsave & Hd & Hio).
  rewrite saveThought_eq, Hs in Hsave. simpl in Hsave.
  pose proof Hne as Hne'. apply String.eqb_neq in Hne'.
  rewrite Hne', Hkey, Hio, H0 in Hsave.
  injection Hsave as <-.
  destruct (getExercises_complete host run
              (set_disk (<[THOUGHTS_KEY_PREFIX +:+ id := text]> (disk w1))
                 (asked w1))) as (r & Hr & Hall); simpl.
  - now rewrite Hio.
  - now rewrite Hio.
  - rewrite Hio, H3. discriminate.
  - intros key txt Hlook Hthought Htxt.
    apply lookup_insert_Some in Hlook as [[<- <-]|[_ Hlook]].
    + exists v. split; [exact Hparse |]. rewrite startsWith_app. discriminate.
    + rewrite Hd in Hlook. now apply Hload.
  - exists r. split; [exact Hr |].
    specialize (Hall (THOUGHTS_KEY_PREFIX +:+ id) text v). simpl in Hall.
    rewrite lookup_insert_eq, startsWith_app in Hall.
    apply Hall; auto. apply live_is_thought_key.
Qed.

Lemma saved_thought_is_loaded_witness :
  exists r,
    (getExercises Device.device Examples.calm
       (saveExercise Device.device Examples.calm Examples.draft
          (Examples.boot Examples.one_live)).2).1 = Done r /\
    VObj [("uuid", VStr (Examples.live "9f1c2e7a-0"));
          ("createdAt", VStr "2019-05-15T12:30:00.000Z");
          ("updatedAt", VStr "2019-05-15T12:30:00.001Z");
          ("automaticThought", VStr "Nobody likes me");
          ("cognitiveDistortions", VArr [] []);
          ("challenge", VStr "");
          ("alternativeThought", VStr "")] ∈ savedThoughts r.
Proof.
  eapply (saved_thought_is_loaded Device.device Examples.calm Examples.draft
            _ _ (Examples.boot Examples.one_live)).
  - vm_compute. reflexivity.
  - vm_compute. reflexivity.
  - vm_compute. reflexivity.
  - vm_compute. discriminate.
  - vm_compute. reflexivity.
  - apply one_live_loadable.
  - intros n Hn. reflexivity.
Defined.

End AfterSaving.

Section AfterLoading.

(** X8.  A load sorts by key prefix and reads thought keys only: whatever
    storage does, every thought in [savedThoughts] was parsed from a
    non-empty value under a key that starts with [THOUGHTS_KEY_PREFIX],
    and every thought in [deletedThoughts] from a non-empty value under a
    key that starts with [DELETED_KEY_PREFIX]; other keys (the
    existing-user flag among them) are never shown. *)
Theorem getExercises_sorts_by_prefix (host : Host) (run : Scenario)
    (w : world) (r : StoredThoughts) :
  (getExercises host run w).1 = Done r ->
  (forall v, v ∈ savedThoughts r ->
     exists key text, disk w !! key = Some text /\ text <> "" /\
       startsWith key THOUGHTS_KEY_PREFIX = true /\
       key <> EXISTING_USER_KEY /\
       JSON_parse host text = Some v) /\
  (forall v, v ∈ deletedThoughts r ->
     exists key text, disk w !! key = Some text /\ text <> "" /\
       startsWith key DELETED_KEY_PREFIX = true /\
       startsWith key THOUGHTS_KEY_PREFIX = false /\
       key <> EXISTING_USER_KEY /\
       JSON_parse host text = Some v).
Proof.
  intros Hr. destruct (getExercises_sound host run w r Hr) as [Hs Hd].
  split; intros v Hv.
  - destruct (Hs v Hv) as (key & text & Hlook & Hne & Hlive & Hparse).
    exists key, text. repeat split; try assumption.
    intros ->. discriminate Hlive.
  - destruct (Hd v Hv) as (key & text & Hlook & Hne & Hlive & Harch & Hparse).
    exists key, text. repeat split; try assumption.
    intros ->. discriminate Harch.
Qed.

Lemma getExercises_sorts_by_prefix_witness :
  exists key text,
    disk (Examples.boot Examples.stale_archive) !! key = Some text /\
    text <> "" /\
    startsWith key DELETED_KEY_PREFIX = true /\
    startsWith key THOUGHTS_KEY_PREFIX = false /\
    key <> EXISTING_USER_KEY /\
    JSON_parse Device.device text = Some Examples.stale_thought.
Proof.
  destruct (getExercises_sorts_by_prefix Device.device Examples.calm
              (Examples.boot Examples.stale_archive)
              {| savedThoughts := []; deletedThoughts := [Examples.stale_thought] |})
    as [_ Hdeleted]; [vm_compute; reflexivity |].
  apply Hdeleted. now apply list_elem_of_singleton.
Defined.

(** X9.  When storage rejects the listing of the keys, or the reading of
    their values, a load returns two empty lists and leaves storage as it
    was. *)
Theorem getExercises_empty_when_rejected (host : Host) (run : Scenario)
    (w : world) :
  fate run (io w) = Reject \/
  (fate run (io w) = Pass /\ fate run (S (io w)) = Reject) ->
  (getExercises host run w).1 = Done no_thoughts /\
  disk (getExercises host run w).2 = disk w.
Proof.
  intros Hrejected. rewrite getExercises_eq.
  destruct Hrejected as [-> | [-> ->]]; split; reflexivity.
Qed.

Lemma getExercises_empty_when_rejected_witness :
  (getExercises Device.device Examples.offline
     (Examples.boot Examples.one_live)).1 = Done no_thoughts /\
  (getExercises Device.device Examples.full_device
     (Examples.boot Examples.one_live)).1 = Done no_thoughts.
Proof.
  split.
  - apply (getExercises_empty_when_rejected Device.device Examples.offline
             (Examples.boot Examples.one_live)).
    left. reflexivity.
  - apply (getExercises_empty_when_rejected Device.device Examples.full_device
             (Examples.boot Examples.one_live)).
    right. split; reflexivity.
Defined.

(** A row outside the live namespace whose value parses to [null] (or to
    anything whose [updatedAt] cannot be read) makes the loop throw. *)
Lemma forEach_throws_unreadable (host : Host) (run : Scenario)
    (rows : list row) (acc : sorting) (w : world) (x : row) (v : value) :
  x ∈ rows -> JSON_parse host (item_text x.2) = Some v ->
  startsWith x.1 THOUGHTS_KEY_PREFIX = false ->
  get_prop v "updatedAt" = None ->
  (forEach host run rows acc w).1 = Threw.
Proof.
  intros Hx Hparse Hkey Hnull. revert acc w.
  induction rows as [|y rows IH]; intros acc w; [inversion Hx |].
  apply elem_of_cons in Hx as [<-|Hx].
  - rewrite forEach_cons, sort_row_eq, Hparse, Hkey, Hnull. reflexivity.
  - rewrite forEach_cons, sort_row_eq.
    destruct (JSON_parse host (item_text y.2)) as [vy|]; [| reflexivity].
    destruct (startsWith y.1 THOUGHTS_KEY_PREFIX); [now apply IH |].
    destruct (get_prop vy "updatedAt"); [now apply IH | reflexivity].
Qed.

(** X10.  The filter of [getExercises] tests the stored text, not the
    parsed value: an archived key whose text parses to [null] (the text
    [null] itself) passes it, reading its [updatedAt] throws, and the
    load, with storage at work, returns two empty lists. *)
Theorem getExercises_archived_null_empties_load (host : Host) (run : Scenario)
    (w : world) (id text : string) (v : value) :
  fate run (io w) = Pass -> fate run (S (io w)) = Pass ->
  disk w !! (DELETED_KEY_PREFIX +:+ id) = Some text -> text <> "" ->
  JSON_parse host text = Some v -> get_prop v "updatedAt" = None ->
  (getExercises host run w).1 = Done no_thoughts.
Proof.
  intros H0 H1 Hlook Hne Hparse Hnull. rewrite getExercises_eq, H0, H1.
  pose proof (forEach_throws_unreadable host run (rows_of (disk w))
                (no_thoughts, []) (asked (asked w))
                (DELETED_KEY_PREFIX +:+ id, Some text) v) as Hthrow.
  destruct (forEach host run _ _ _) as [[sorted| |] w'];
    [| reflexivity |]; simpl in Hthrow;
    (discriminate Hthrow;
     [apply elem_of_rows_of; exists text; simpl;
      auto using archived_is_thought_key
     | exact Hparse | exact (archived_not_live id) | exact Hnull]).
Qed.

Lemma getExercises_archived_null_empties_load_witness :
  (getExercises Device.device Examples.calm
     (Examples.boot Examples.with_null_archive)).1 = Done no_thoughts.
Proof.
  apply (getExercises_archived_null_empties_load Device.device Examples.calm
           (Examples.boot Examples.with_null_archive) "n0" "null" VNull);
    try (vm_compute; reflexivity).
  vm_compute. discriminate.
Defined.

End AfterLoading.

Section MovingFurther.

(** X11.  Archiving, deleting or restoring a key that holds nothing does
    nothing: [getItem] gives [null], [JSON.parse(null)] is [null], the
    assignment of [updatedAt] throws and the exception is caught.  Storage
    is left as it was, whatever it does, and nothing is raised. *)
Theorem move_of_missing_key_is_noop (host : Host) (run : Scenario) (w : world)
    (uuid : string) :
  JSON_parse host "null" = Some VNull ->
  disk w !! uuid = None ->
  disk (deleteExercise host run uuid w).2 = disk w /\
  disk (restoreExercise host run uuid w).2 = disk w /\
  (deleteExercise host run uuid w).1 <> Threw /\
  (restoreExercise host run uuid w).1 <> Threw.
Proof.
  intros Hnull Hnone.
  unfold deleteExercise, restoreExercise, try_catch, bind, getItem, request.
  destruct (fate run (io w)); simpl; try (repeat split; discriminate).
  rewrite Hnone. simpl. rewrite Hnull. simpl. repeat split; discriminate.
Qed.

Lemma move_of_missing_key_is_noop_witness :
  disk (deleteExercise Device.device Examples.calm (Examples.live "zz")
          (Examples.boot Examples.one_live)).2 = Examples.one_live /\
  disk (restoreExercise Device.device Examples.calm (Examples.archived "zz")
          (Examples.boot Examples.one_live)).2 = Examples.one_live.
Proof.
  split.
  - apply (move_of_missing_key_is_noop Device.device Examples.calm
             (Examples.boot Examples.one_live) (Examples.live "zz"));
      vm_compute; reflexivity.
  - apply (move_of_missing_key_is_noop Device.device Examples.calm
             (Examples.boot Examples.one_live) (Examples.archived "zz"));
      vm_compute; reflexivity.
Defined.

(** X12.  [restoreExercise] does not check that its key is archived.  On a
    key in which [DELETED_KEY_PREFIX] does not occur (a live key, say)
    [replace] changes nothing, the record is written under the same key
    and that key is then removed: with storage at work the thought is
    gone. *)
Theorem restoreExercise_of_unarchived_key_removes_it (host : Host)
    (run : Scenario) (w : world) (uuid text text' : string)
    (fields : list (string * value)) :
  replace uuid DELETED_KEY_PREFIX THOUGHTS_KEY_PREFIX = uuid ->
  fate run (io w) = Pass -> fate run (S (io w)) = Pass ->
  fate run (S (S (io w))) = Pass ->
  disk w !! uuid = Some text ->
  JSON_parse host text = Some (VObj fields) ->
  stringify host
    (VObj (assoc_set "uuid" (VStr uuid)
             (assoc_set "updatedAt" (VDate (Some (wallclock run (clk w)))) fields)))
    = Some (Some text') ->
  text' <> "" ->
  disk (restoreExercise host run uuid w).2 = delete uuid (disk w) /\
  disk (restoreExercise host run uuid w).2 !! uuid = None.
Proof.
  intros Hsame H0 H1 H2 Hlook Hparse Hs Hne.
  destruct (move_eq host run w uuid uuid text fields text' H0 H1 H2 Hlook
              Hparse Hs Hne) as [_ Hres].
  rewrite (Hres Hsame). simpl. rewrite delete_insert_eq.
  split; [reflexivity | apply lookup_delete_eq].
Qed.

Lemma restoreExercise_of_unarchived_key_removes_it_witness :
  disk (restoreExercise Device.device Examples.calm (Examples.live "a1")
          (Examples.boot Examples.one_live)).2 !! Examples.live "a1" = None.
Proof.
  edestruct (restoreExercise_of_unarchived_key_removes_it Device.device
               Examples.calm (Examples.boot Examples.one_live)
               (Examples.live "a1")) as [_ Hgone];
    [ vm_compute; reflexivity
    | reflexivity | reflexivity | reflexivity
    | vm_compute; reflexivity
    | vm_compute; reflexivity
    | vm_compute; reflexivity
    | vm_compute; discriminate
    | ].
  exact Hgone.
Defined.

(** What [saveThought] writes goes under the record's [uuid]: a property of
    the store that holds under every write at that key is kept. *)
Lemma saveThought_frame (host : Host) (run : Scenario)
    (P : gmap string string -> Prop) (saveableThought : value) (key : string) :
  get_prop saveableThought "uuid" = Some (VStr key) ->
  (forall d text, P d -> P (<[key := text]> d)) ->
  stays P (saveThought host run saveableThought) (fun _ => True).
Proof.
  intros Hkey Hwrite w Hw. split; [| done].
  rewrite saveThought_eq, Hkey.
  destruct (stringify host saveableThought) as [o|]; [| exact Hw].
  destruct (falsy o); [exact Hw |].
  destruct (fate run (io w)); simpl; auto.
Qed.

(** X13.  Archiving, deleting and restoring touch two keys at most: the key
    they are given and the key [replace] turns it into.  Every other key
    holds afterwards what it held before, whatever storage does and
    whatever the stored value is. *)
Theorem moves_touch_two_keys_only (host : Host) (run : Scenario) (w : world)
    (uuid key : string) :
  key <> uuid ->
  (key <> replace uuid THOUGHTS_KEY_PREFIX DELETED_KEY_PREFIX ->
   disk (deleteExercise host run uuid w).2 !! key = disk w !! key) /\
  (key <> replace uuid DELETED_KEY_PREFIX THOUGHTS_KEY_PREFIX ->
   disk (restoreExercise host run uuid w).2 !! key = disk w !! key).
Proof.
  intros Hne.
  set (P := fun d : gmap string string => d !! key = disk w !! key).
  assert (Hremove : stays P (removeItem run uuid) (fun _ => True)).
  { apply stays_request. intros d Hd. unfold P. simpl.
    now rewrite lookup_delete_ne by congruence. }
  assert (Hget : stays P (getItem run uuid) (fun _ => True))
    by (apply stays_request; intros d Hd; exact Hd).
  assert (Hsave : forall to_ saved,
            key <> to_ -> get_prop saved "uuid" = Some (VStr to_) ->
            stays P (saveThought host run saved) (fun _ => True)).
  { intros to_ saved Hto Hkey. apply (saveThought_frame host run P saved to_ Hkey).
    intros d text Hd. unfold P. now rewrite lookup_insert_ne by congruence. }
  split; intros Hto.
  - cut (stays P (deleteExercise host run uuid) (fun _ => True));
      [intros Hall; exact (proj1 (Hall w eq_refl)) |].
    unfold deleteExercise.
    apply stays_try; [| now apply stays_ret].
    eapply stays_bind; [exact Hget |]. intros item _.
    eapply stays_bind; [apply stays_call |]. intros thought _.
    eapply stays_bind; [apply stays_new_Date |]. intros now _.
    eapply stays_bind; [apply stays_call |]. intros thought1 _.
    destruct (startsWith uuid THOUGHTS_KEY_PREFIX); [| exact Hremove].
    eapply stays_bind; [apply stays_call |]. intros thought2 Hset.
    eapply stays_bind; [| intros _ _; exact Hremove].
    apply (Hsave _ thought2 Hto). now apply get_set_prop_eq in Hset.
  - cut (stays P (restoreExercise host run uuid) (fun _ => True));
      [intros Hall; exact (proj1 (Hall w eq_refl)) |].
    unfold restoreExercise.
    apply stays_try; [| now apply stays_ret].
    eapply stays_bind; [exact Hget |]. intros item _.
    eapply stays_bind; [apply stays_call |]. intros thought _.
    eapply stays_bind; [apply stays_new_Date |]. intros now _.
    eapply stays_bind; [apply stays_call |]. intros thought1 _.
    eapply stays_bind; [apply stays_call |]. intros thought2 Hset.
    eapply stays_bind; [| intros _ _; exact Hremove].
    apply (Hsave _ thought2 Hto). now apply get_set_prop_eq in Hset.
Qed.

Lemma moves_touch_two_keys_only_witness :
  disk (deleteExercise Device.device Examples.calm (Examples.live "a1")
          (Examples.boot Examples.with_corrupt)).2 !! Examples.live "b2"
  = Examples.with_corrupt !! Examples.live "b2".
Proof.
  apply (moves_touch_two_keys_only Device.device Examples.calm
           (Examples.boot Examples.with_corrupt) (Examples.live "a1")
           (Examples.live "b2")); vm_compute; discriminate.
Defined.

End MovingFurther.

Section Keys.

(** X14.  The keys of the two namespaces: the archived form of a live key
    [getThoughtKey id] is [DELETED_KEY_PREFIX + id], restoring it gives the
    live key back, two live keys never share an archived form, and no key
    belongs to both namespaces. *)
Theorem rekey_round_trip (id : string) :
  startsWith (getThoughtKey id) THOUGHTS_KEY_PREFIX = true /\
  replace (getThoughtKey id) THOUGHTS_KEY_PREFIX DELETED_KEY_PREFIX
    = DELETED_KEY_PREFIX +:+ id /\
  replace (replace (getThoughtKey id) THOUGHTS_KEY_PREFIX DELETED_KEY_PREFIX)
          DELETED_KEY_PREFIX THOUGHTS_KEY_PREFIX
    = getThoughtKey id /\
  (forall id',
     replace (getThoughtKey id) THOUGHTS_KEY_PREFIX DELETED_KEY_PREFIX
     = replace (getThoughtKey id') THOUGHTS_KEY_PREFIX DELETED_KEY_PREFIX ->
     id = id') /\
  (forall key,
     startsWith key THOUGHTS_KEY_PREFIX = true ->
     startsWith key DELETED_KEY_PREFIX = false).
Proof.
  unfold getThoughtKey.
  split; [apply startsWith_app |].
  split; [apply replace_prefix |].
  split; [now rewrite !replace_prefix |].
  split.
  - intros id'. rewrite !replace_prefix. intros Heq. cbv in Heq. congruence.
  - intros key Hlive. unfold startsWith in *.
    rewrite (prefix_split _ _ Hlive). reflexivity.
Qed.

End Keys.

Section LosingThoughtsExtra.

Lemma deleteExercise_kept_or_write_failed (host : Host) (run : Scenario)
    (w : world) (uuid text : string) :
  startsWith uuid THOUGHTS_KEY_PREFIX = true ->
  disk w !! uuid = Some text ->
  kept_or_write_failed host run w uuid
    (replace uuid THOUGHTS_KEY_PREFIX DELETED_KEY_PREFIX) text
    (disk (deleteExercise host run uuid w).2).
Proof.
  intros Hlive Hlook.
  set (to_ := replace uuid THOUGHTS_KEY_PREFIX DELETED_KEY_PREFIX).
  assert (Hne : to_ <> uuid).
  { unfold to_. rewrite (prefix_split _ _ Hlive), replace_prefix.
    intros Heq. symmetry in Heq. revert Heq. apply live_ne_archived. }
  remember (deleteExercise host run uuid w) as res eqn:Hres.
  assert (Hkept : disk res.2 = disk w ->
            kept_or_write_failed host run w uuid to_ text (disk res.2))
    by (intros ->; now left).
  unfold deleteExercise, try_catch, bind, getItem, request at 1 in Hres.
  destruct (fate run (io w)); simpl in Hres;
    try (apply Hkept; subst res; reflexivity; fail).
  rewrite Hlook in Hres. simpl in Hres.
  destruct (JSON_parse host text) as [t|] eqn:Hparse; simpl in Hres;
    [| apply Hkept; subst res; reflexivity].
  destruct (set_prop t "updatedAt" _) as [t1|] eqn:H1; simpl in Hres;
    [| apply Hkept; subst res; reflexivity].
  rewrite Hlive in Hres. fold to_ in Hres.
  destruct (set_prop t1 "uuid" (VStr to_)) as [t2|] eqn:H2; simpl in Hres;
    [| apply Hkept; subst res; reflexivity].
  pose proof (get_set_prop_eq _ _ _ _ H2) as Hkey.
  unfold ret at 1 in Hres. rewrite saveThought_eq in Hres.
  destruct (stringify host t2) as [o|] eqn:Hs;
    [| right; exists t, t1, t2; repeat (split; [assumption |]);
       right; left; exact Hs].
  destruct (falsy o) eqn:Hfalsy;
    [right; exists t, t1, t2; repeat (split; [assumption |]);
     right; right; exists o; split; [exact Hs | exact Hfalsy] |].
  apply falsy_false in Hfalsy as (written & -> & Hwritten).
  rewrite Hkey in Hres. simpl in Hres.
  destruct (fate run (S (io w))) eqn:Hwrite; simpl in Hres;
    [| right; exists t, t1, t2; repeat (split; [assumption |]);
       left; exists written; split; [exact Hs |];
       split; [exact Hwritten | right; exact Hwrite]
     | apply Hkept; subst res; reflexivity].
  right. exists t, t1, t2. repeat (split; [assumption |]).
  left. exists written. split; [exact Hs |]. split; [exact Hwritten |].
  left. unfold removeItem, request in Hres. simpl in Hres.
  destruct (fate run (S (S (io w)))); subst res; simpl.
  - rewrite lookup_delete_ne by (symmetry; exact Hne).
    apply lookup_insert_eq.
  - apply lookup_insert_eq.
  - apply lookup_insert_eq.
Qed.

Lemma restoreExercise_kept_or_write_failed (host : Host) (run : Scenario)
    (w : world) (uuid text : string) :
  replace uuid DELETED_KEY_PREFIX THOUGHTS_KEY_PREFIX <> uuid ->
  disk w !! uuid = Some text ->
  kept_or_write_failed host run w uuid
    (replace uuid DELETED_KEY_PREFIX THOUGHTS_KEY_PREFIX) text
    (disk (restoreExercise host run uuid w).2).
Proof.
  set (to_ := replace uuid DELETED_KEY_PREFIX THOUGHTS_KEY_PREFIX).
  intros Hne Hlook.
  remember (restoreExercise host run uuid w) as res eqn:Hres.
  assert (Hkept : disk res.2 = disk w ->
            kept_or_write_failed host run w uuid to_ text (disk res.2))
    by (intros ->; now left).
  unfold restoreExercise, try_catch, bind, getItem, request at 1 in Hres.
  destruct (fate run (io w)); simpl in Hres;
    try (apply Hkept; subst res; reflexivity; fail).
  rewrite Hlook in Hres. simpl in Hres.
  destruct (JSON_parse host text) as [t|] eqn:Hparse; simpl in Hres;
    [| apply Hkept; subst res; reflexivity].
  destruct (set_prop t "updatedAt" _) as [t1|] eqn:H1; simpl in Hres;
    [| apply Hkept; subst res; reflexivity].
  fold to_ in Hres.
  destruct (set_prop t1 "uuid" (VStr to_)) as [t2|] eqn:H2; simpl in Hres;
    [| apply Hkept; subst res; reflexivity].
  pose proof (get_set_prop_eq _ _ _ _ H2) as Hkey.
  unfold ret at 1 in Hres. rewrite saveThought_eq in Hres.
  destruct (stringify host t2) as [o|] eqn:Hs;
    [| right; exists t, t1, t2; repeat (split; [assumption |]);
       right; left; exact Hs].
  destruct (falsy o) eqn:Hfalsy;
    [right; exists t, t1, t2; repeat (split; [assumption |]);
     right; right; exists o; split; [exact Hs | exact Hfalsy] |].
  apply falsy_false in Hfalsy as (written & -> & Hwritten).
  rewrite Hkey in Hres. simpl in Hres.
  destruct (fate run (S (io w))) eqn:Hwrite; simpl in Hres;
    [| right; exists t, t1, t2; repeat (split; [assumption |]);
       left; exists written; split; [exact Hs |];
       split; [exact Hwritten | right; exact Hwrite]
     | apply Hkept; subst res; reflexivity].
  right. exists t, t1, t2. repeat (split; [assumption |]).
  left. exists written. split; [exact Hs |]. split; [exact Hwritten |].
  left. unfold removeItem, request in Hres. simpl in Hres.
  destruct (fate run (S (S (io w)))); subst res; simpl.
  - rewrite lookup_delete_ne by (symmetry; exact Hne).
    apply lookup_insert_eq.
  - apply lookup_insert_eq.
  - apply lookup_insert_eq.
Qed.

(** X15.  Moving a thought between the namespaces loses it only through a
    failed write.  Let [text] be under a live key before [deleteExercise],
    or under an archived key before [restoreExercise].  Afterwards, under
    every fate of the storage requests:
    - [text] itself is still under the old key; or
    - the record parsed from [text], with [updatedAt] read from the clock
      and [uuid] set to the new key, serializes to a non-empty text, and
      that text is under the new key, unless the write request (the
      second request) was rejected; or
    - that very record did not serialize.
    In particular a process killed between any two requests, or a rejected
    read or removal, loses nothing. *)
Theorem moves_lose_thought_only_through_failed_write (host : Host)
    (run : Scenario) (w : world) (id text : string) :
  (disk w !! (THOUGHTS_KEY_PREFIX +:+ id) = Some text ->
   disk (deleteExercise host run (THOUGHTS_KEY_PREFIX +:+ id) w).2
     !! (THOUGHTS_KEY_PREFIX +:+ id) = Some text \/
   exists parsed stamped moved,
     JSON_parse host text = Some parsed /\
     set_prop parsed "updatedAt" (VDate (Some (wallclock run (clk w))))
       = Some stamped /\
     set_prop stamped "uuid" (VStr (DELETED_KEY_PREFIX +:+ id)) = Some moved /\
     ((exists written,
         stringify host moved = Some (Some written) /\ written <> "" /\
         (disk (deleteExercise host run (THOUGHTS_KEY_PREFIX +:+ id) w).2
            !! (DELETED_KEY_PREFIX +:+ id) = Some written \/
          fate run (S (io w)) = Reject)) \/
      stringify host moved = None \/
      exists o, stringify host moved = Some o /\ falsy o = true)) /\
  (disk w !! (DELETED_KEY_PREFIX +:+ id) = Some text ->
   disk (restoreExercise host run (DELETED_KEY_PREFIX +:+ id) w).2
     !! (DELETED_KEY_PREFIX +:+ id) = Some text \/
   exists parsed stamped moved,
     JSON_parse host text = Some parsed /\
     set_prop parsed "updatedAt" (VDate (Some (wallclock run (clk w))))
       = Some stamped /\
     set_prop stamped "uuid" (VStr (THOUGHTS_KEY_PREFIX +:+ id)) = Some moved /\
     ((exists written,
         stringify host moved = Some (Some written) /\ written <> "" /\
         (disk (restoreExercise host run (DELETED_KEY_PREFIX +:+ id) w).2
            !! (THOUGHTS_KEY_PREFIX +:+ id) = Some written \/
          fate run (S (io w)) = Reject)) \/
      stringify host moved = None \/
      exists o, stringify host moved = Some o /\ falsy o = true)).
Proof.
  split; intros Hlook.
  - pose proof (deleteExercise_kept_or_write_failed host run w
                  (THOUGHTS_KEY_PREFIX +:+ id) text (startsWith_app _ _) Hlook)
      as Hkept.
    rewrite replace_prefix in Hkept. exact Hkept.
  - pose proof (restoreExercise_kept_or_write_failed host run w
                  (DELETED_KEY_PREFIX +:+ id) text) as Hkept.
    rewrite replace_prefix in Hkept. apply Hkept; [| exact Hlook].
    intros Heq. revert Heq. apply live_ne_archived.
Qed.

Lemma moves_lose_thought_only_through_failed_write_witness :
  kept_or_write_failed Device.device Examples.calm
    (Examples.boot Examples.one_live)
    (Examples.live "a1") (Examples.archived "a1")
    (Examples.text (Examples.thought (Examples.live "a1")
                      "2019-05-01T10:00:00.000Z"))
    (disk (deleteExercise Device.device Examples.calm (Examples.live "a1")
             (Examples.boot Examples.one_live)).2) /\
  kept_or_write_failed Device.device Examples.full_device
    (Examples.boot Examples.stale_archive)
    (Examples.archived "a1") (Examples.live "a1")
    (Examples.text Examples.stale_thought)
    (disk (restoreExercise Device.device Examples.full_device
             (Examples.archived "a1")
             (Examples.boot Examples.stale_archive)).2).
Proof.
  split.
  - apply (moves_lose_thought_only_through_failed_write Device.device
             Examples.calm (Examples.boot Examples.one_live) "a1").
    vm_compute. reflexivity.
  - apply (moves_lose_thought_only_through_failed_write Device.device
             Examples.full_device (Examples.boot Examples.stale_archive) "a1").
    vm_compute. reflexivity.
Defined.

End LosingThoughtsExtra.

Section ScreenLoading.

Lemma assoc_get_absent {A} (k : string) (l : list (string * A)) :
  k ∉ l.*1 -> assoc_get k l = None.
Proof.
  induction l as [|[k' y] l IH]; [reflexivity |].
  intros Hk. simpl. apply not_elem_of_cons in Hk as [Hne Hk].
  apply String.eqb_neq in Hne. simpl in Hne. rewrite Hne. now apply IH.
Qed.

(** Spreading a record over a literal gives every field of the record its
    own value. *)
Lemma assoc_get_spread_own {A} (k : string) (x : A)
    (fields literal : list (string * A)) :
  NoDup fields.*1 -> assoc_get k fields = Some x ->
  assoc_get k (fold_left (fun acc kv => assoc_set kv.1 kv.2 acc) fields literal)
  = Some x.
Proof.
  revert literal. induction fields as [|[k' y] fields IH]; intros literal Hnd Hk.
  - discriminate Hk.
  - simpl in *. apply NoDup_cons in Hnd as [Hfresh Hnd].
    destruct (String.eqb k k') eqn:E.
    + apply String.eqb_eq in E as ->. injection Hk as ->.
      rewrite assoc_get_spread by now apply assoc_get_absent.
      apply assoc_get_set_eq.
    + now apply IH.
Qed.

(** X16.  [fixTimestamps] builds [Date]s from [createdAt] and [updatedAt]
    and then spreads the record over them, so every field the record has
    keeps the value it had: a stored timestamp stays the string that was
    parsed.  Only a missing timestamp is filled in, with
    [new Date(undefined)]. *)
Theorem fixTimestamps_keeps_stored_fields (host : Host)
    (fields : list (string * value)) :
  NoDup fields.*1 ->
  exists fixed,
    fixTimestamps host (VObj fields) = Some fixed /\
    (forall k x, assoc_get k fields = Some x -> get_prop fixed k = Some x) /\
    (assoc_get "createdAt" fields = None ->
     get_prop fixed "createdAt" = Some (VDate (Date_from host VUndefined))) /\
    (assoc_get "updatedAt" fields = None ->
     get_prop fixed "updatedAt" = Some (VDate (Date_from host VUndefined))).
Proof.
  intros Hnd. eexists. split; [reflexivity |]. simpl.
  split; [| split].
  - intros k x Hk. now rewrite (assoc_get_spread_own k x).
  - intros Hnone. rewrite assoc_get_spread by exact Hnone. simpl.
    now rewrite Hnone.
  - intros Hnone. rewrite assoc_get_spread by exact Hnone. simpl.
    now rewrite Hnone.
Qed.

Lemma fixTimestamps_keeps_stored_fields_witness :
  exists fixed,
    fixTimestamps Device.device Examples.stale_thought = Some fixed /\
    get_prop fixed "updatedAt" = Some (VStr "2019-05-08T12:29:00.000Z").
Proof.
  destruct (fixTimestamps_keeps_stored_fields Device.device
              (own_fields Examples.stale_thought))
    as (fixed & Hfixed & Hkeeps & _).
  - apply (bool_decide_unpack _). vm_compute. exact I.
  - exists fixed. split; [exact Hfixed |]. now apply Hkeeps.
Defined.

(** X17.  [getThoughtGroup] drops [null], [undefined] and the other falsy
    entries before it reads their fields, so whatever list a load handed
    over, building the groups raises no TypeError. *)
Theorem getThoughtGroup_never_raises (host : Host) {ThoughtGroup : Type}
    (groupThoughtsByDay : list value -> list ThoughtGroup)
    (validThoughtGroup : ThoughtGroup -> bool) (storedThoughts : list value) :
  is_Some (getThoughtGroup host groupThoughtsByDay validThoughtGroup
             storedThoughts) /\
  getThoughtGroup host groupThoughtsByDay validThoughtGroup storedThoughts
  = getThoughtGroup host groupThoughtsByDay validThoughtGroup
      (List.filter truthy storedThoughts) /\
  fixTimestamps host VNull = None /\ fixTimestamps host VUndefined = None.
Proof.
  split; [| split; [| split; reflexivity]].
  - unfold getThoughtGroup.
    destruct (mapM_is_Some_2 (fixTimestamps host)
                (List.filter truthy storedThoughts)) as [thoughts ->];
      [| simpl; eauto].
    apply Forall_forall. intros v Hv.
    apply list_elem_of_In, filter_In in Hv as [_ Hv].
    destruct v; try discriminate Hv; simpl; eauto.
  - assert (Hagain : List.filter truthy (List.filter truthy storedThoughts)
                     = List.filter truthy storedThoughts).
    { induction storedThoughts as [|v l IH]; [reflexivity |].
      simpl. destruct (truthy v) eqn:E; simpl; [rewrite E |]; now rewrite IH. }
    unfold getThoughtGroup. now rewrite Hagain.
Qed.

End ScreenLoading.

Section MoveThenLoad.

(** A store stays loadable when a thought is moved to a key under which its
    new text parses. *)
Lemma loadable_move (host : Host) (d : gmap string string)
    (from to_ text : string) (v : value) :
  loadable host d ->
  JSON_parse host text = Some v -> is_Some (get_prop v "updatedAt") ->
  loadable host (delete from (<[to_ := text]> d)).
Proof.
  intros Hload Hparse Hupdated key txt Hlook Hkey Hne.
  apply lookup_delete_Some in Hlook as [_ Hlook].
  apply lookup_insert_Some in Hlook as [[<- <-]|[_ Hlook]].
  - exists v. auto.
  - now apply Hload.
Qed.

(** X18.  Archive, then load (what the list screen does on a press of the
    trash button).  With storage at work, on a store whose thought values
    parse, after [deleteExercise] on a live key the next load returns the
    archived record among the [deletedThoughts], and no thought of the
    [savedThoughts] was read from the old key. *)
Theorem archived_thought_is_loaded_as_deleted (host : Host) (run : Scenario)
    (w : world) (id text text1 : string) (fields : list (string * value))
    (v : value) :
  (forall n, (n < 6)%nat -> fate run (n + io w) = Pass) ->
  loadable host (disk w) ->
  disk w !! (THOUGHTS_KEY_PREFIX +:+ id) = Some text ->
  JSON_parse host text = Some (VObj fields) ->
  stringify host
    (VObj (assoc_set "uuid" (VStr (DELETED_KEY_PREFIX +:+ id))
             (assoc_set "updatedAt" (VDate (Some (wallclock run (clk w)))) fields)))
    = Some (Some text1) ->
  text1 <> "" ->
  JSON_parse host text1 = Some v -> is_Some (get_prop v "updatedAt") ->
  exists r,
    (getExercises host run
       (deleteExercise host run (THOUGHTS_KEY_PREFIX +:+ id) w).2).1 = Done r /\
    v ∈ deletedThoughts r /\
    (forall v', v' ∈ savedThoughts r ->
       exists key text',
         key <> THOUGHTS_KEY_PREFIX +:+ id /\
         disk w !! key = Some text' /\ JSON_parse host text' = Some v').
Proof.
  intros Hpass Hload Hlook Hparse Hs Hne Hparse1 Hupdated.
  destruct (move_eq host run w (THOUGHTS_KEY_PREFIX +:+ id)
              (DELETED_KEY_PREFIX +:+ id) text fields text1) as [Hdel _];
    try assumption;
    try (apply (Hpass 0%nat); lia); try (apply (Hpass 1%nat); lia);
    try (apply (Hpass 2%nat); lia).
  rewrite (Hdel (startsWith_app _ _) (replace_prefix _ _ _)).
  set (w1 := set_disk _ _).
  assert (Hd1 : disk w1 = delete (THOUGHTS_KEY_PREFIX +:+ id)
                            (<[DELETED_KEY_PREFIX +:+ id := text1]> (disk w)))
    by reflexivity.
  assert (Hio1 : io w1 = S (S (S (io w)))) by reflexivity.
  destruct (getExercises_complete host run w1) as (r & Hr & Hall).
  - rewrite Hio1. apply (Hpass 3%nat). lia.
  - rewrite Hio1. apply (Hpass 4%nat). lia.
  - pose proof (Hpass 5%nat ltac:(lia)) as H5. simpl in H5.
    rewrite Hio1, H5. discriminate.
  - rewrite Hd1. now apply (loadable_move host (disk w) _ _ text1 v).
  - exists r. simpl. split; [exact Hr |]. split.
    + specialize (Hall (DELETED_KEY_PREFIX +:+ id) text1 v).
      rewrite archived_not_live in Hall. apply Hall; auto.
      * rewrite Hd1, lookup_delete_ne by apply live_ne_archived.
        apply lookup_insert_eq.
      * apply archived_is_thought_key.
    + intros v' Hv'.
      destruct (getExercises_sound host run w1 r Hr) as [Hsaved _].
      destruct (Hsaved v' Hv') as (key & txt & Hk & _ & Hlive & Hp).
      rewrite Hd1 in Hk. apply lookup_delete_Some in Hk as [Hkne Hk].
      apply lookup_insert_Some in Hk as [[<- _]|[_ Hk]].
      * rewrite archived_not_live in Hlive. discriminate Hlive.
      * exists key, txt. auto.
Qed.

Lemma archived_thought_is_loaded_as_deleted_witness :
  exists r,
    (getExercises Device.device Examples.calm
       (deleteExercise Device.device Examples.calm (Examples.live "a1")
          (Examples.boot Examples.one_live)).2).1 = Done r /\
    Examples.thought (Examples.archived "a1") "2019-05-15T12:30:00.000Z"
      ∈ deletedThoughts r.
Proof.
  edestruct (archived_thought_is_loaded_as_deleted Device.device Examples.calm
               (Examples.boot Examples.one_live) "a1")
    as (r & Hr & Hdeleted & _);
    [ intros n Hn; reflexivity
    | apply one_live_loadable
    | vm_compute; reflexivity
    | vm_compute; reflexivity
    | vm_compute; reflexivity
    | vm_compute; discriminate
    | vm_compute; reflexivity
    | vm_compute; eauto
    | ].
  exists r. split; [exact Hr | exact Hdeleted].
Defined.

(** X19.  Restore, then load.  With storage at work, on a store whose
    thought values parse, after [restoreExercise] on an archived key the
    next load returns the restored record among the [savedThoughts], and
    no thought of the [deletedThoughts] was read from the archived key. *)
Theorem restored_thought_is_loaded_as_saved (host : Host) (run : Scenario)
    (w : world) (id text text1 : string) (fields : list (string * value))
    (v : value) :
  (forall n, (n < 6)%nat -> fate run (n + io w) = Pass) ->
  loadable host (disk w) ->
  disk w !! (DELETED_KEY_PREFIX +:+ id) = Some text ->
  JSON_parse host text = Some (VObj fields) ->
  stringify host
    (VObj (assoc_set "uuid" (VStr (THOUGHTS_KEY_PREFIX +:+ id))
             (assoc_set "updatedAt" (VDate (Some (wallclock run (clk w)))) fields)))
    = Some (Some text1) ->
  text1 <> "" ->
  JSON_parse host text1 = Some v -> is_Some (get_prop v "updatedAt") ->
  exists r,
    (getExercises host run
       (restoreExercise host run (DELETED_KEY_PREFIX +:+ id) w).2).1 = Done r /\
    v ∈ savedThoughts r /\
    (forall v', v' ∈ deletedThoughts r ->
       exists key text',
         key <> DELETED_KEY_PREFIX +:+ id /\
         disk w !! key = Some text' /\ JSON_parse host text' = Some v').
Proof.
  intros Hpass Hload Hlook Hparse Hs Hne Hparse1 Hupdated.
  destruct (move_eq host run w (DELETED_KEY_PREFIX +:+ id)
              (THOUGHTS_KEY_PREFIX +:+ id) text fields text1) as [_ Hres];
    try assumption;
    try (apply (Hpass 0%nat); lia); try (apply (Hpass 1%nat); lia);
    try (apply (Hpass 2%nat); lia).
  rewrite (Hres (replace_prefix _ _ _)).
  set (w1 := set_disk _ _).
  assert (Hd1 : disk w1 = delete (DELETED_KEY_PREFIX +:+ id)
                            (<[THOUGHTS_KEY_PREFIX +:+ id := text1]> (disk w)))
    by reflexivity.
  assert (Hio1 : io w1 = S (S (S (io w)))) by reflexivity.
  assert (Hkeys : DELETED_KEY_PREFIX +:+ id <> THOUGHTS_KEY_PREFIX +:+ id)
    by (intros Heq; symmetry in Heq; revert Heq; apply live_ne_archived).
  destruct (getExercises_complete host run w1) as (r & Hr & Hall).
  - rewrite Hio1. apply (Hpass 3%nat). lia.
  - rewrite Hio1. apply (Hpass 4%nat). lia.
  - pose proof (Hpass 5%nat ltac:(lia)) as H5. simpl in H5.
    rewrite Hio1, H5. discriminate.
  - rewrite Hd1. now apply (loadable_move host (disk w) _ _ text1 v).
  - exists r. simpl. split; [exact Hr |]. split.
    + specialize (Hall (THOUGHTS_KEY_PREFIX +:+ id) text1 v).
      rewrite startsWith_app in Hall. apply Hall; auto.
      * rewrite Hd1, lookup_delete_ne by exact Hkeys.
        apply lookup_insert_eq.
      * apply live_is_thought_key.
    + intros v' Hv'.
      destruct (getExercises_sound host run w1 r Hr) as [_ Hdeleted].
      destruct (Hdeleted v' Hv') as (key & txt & Hk & _ & Hlive & _ & Hp).
      rewrite Hd1 in Hk. apply lookup_delete_Some in Hk as [Hkne Hk].
      apply lookup_insert_Some in Hk as [[<- _]|[_ Hk]].
      * rewrite startsWith_app in Hlive. discriminate Hlive.
      * exists key, txt. auto.
Qed.

Lemma stale_archive_loadable : loadable Device.device Examples.stale_archive.
Proof.
  intros key txt Hlook _ _. unfold Examples.stale_archive in Hlook.
  apply lookup_singleton_Some in Hlook as [<- <-].
  eexists. split; [vm_compute; reflexivity | intros _; vm_compute; eauto].
Qed.

Lemma restored_thought_is_loaded_as_saved_witness :
  exists r,
    (getExercises Device.device Examples.calm
       (restoreExercise Device.device Examples.calm (Examples.archived "a1")
          (Examples.boot Examples.stale_archive)).2).1 = Done r /\
    Examples.thought (Examples.live "a1") "2019-05-15T12:30:00.000Z"
      ∈ savedThoughts r.
Proof.
  edestruct (restored_thought_is_loaded_as_saved Device.device Examples.calm
               (Examples.boot Examples.stale_archive) "a1")
    as (r & Hr & Hsaved & _);
    [ intros n Hn; reflexivity
    | apply stale_archive_loadable
    | vm_compute; reflexivity
    | vm_compute; reflexivity
    | vm_compute; reflexivity
    | vm_compute; discriminate
    | vm_compute; reflexivity
    | vm_compute; eauto
    | ].
  exists r. split; [exact Hr | exact Hsaved].
Defined.

End MoveThenLoad.
